(** * mf_daily_performance: fund-versus-index daily analysis

    A shallow embedding of [mf_daily_performance.py].

    - Python floats (and the float64 columns of the pandas frames) are Rocq's
      primitive binary64 floats: [nan], the infinities and the signed zeros
      behave as in the program, and [pd.notna] is [Np.notna].
    - A pandas frame is the list of its rows, in index order; a column
      operation is a [map] over the rows.
    - Calendar dates are day numbers in [Z]; [NaT] is [None].
    - Strings are ASCII text: [str.lower] acts on the letters A to Z and
      [str.strip] on the ASCII white space.
    - What the script takes from libraries and services is a parameter:
      [PyLibs] holds [SequenceMatcher.ratio], [Series.corr] and [round],
      [World] holds the two remote services and the clock.  [Difflib] and
      [Np] give the library functions as Python and numpy compute them,
      for running the model on examples. *)

From Stdlib Require Import Floats ZArith List String Ascii Bool Lia.
From Stdlib Require Import DecimalString Permutation.
From Stdlib Require DecimalPos DecimalZ.
From Stdlib Require Import Sorting.Sorted.
Import ListNotations.

Set Warnings "-inexact-float".
Local Open Scope Z_scope.

(* ================================================================= *)
(** ** Floats as numpy and pandas use them *)

Module Np.

(** [pd.notna(x)] on a float. *)
Definition notna (x : float) : bool := negb (is_nan x).

(** [float(n)] for a length or a count. *)
Definition of_nat (n : nat) : float := of_uint63 (Uint63.of_Z (Z.of_nat n)).

(** [np.sign]: -1, 0, 1, and [nan] on [nan]. *)
Definition sign (x : float) : float :=
  if (x <? 0)%float then (-1)%float
  else if (0 <? x)%float then 1%float
  else if (x =? 0)%float then 0%float
  else nan.

(** [values.sum()]: accumulation from [0.0], left to right (numpy adds
    long columns by blocks; nothing below depends on the order). *)
Definition sum (xs : list float) : float :=
  fold_left (fun acc x => (acc + x)%float) xs 0%float.

(** [Series.mean()] with the default [skipna=True]: the sum of the values
    that are not [nan] over their number; [nan] when there is none. *)
Definition mean (xs : list float) : float :=
  let ys := filter notna xs in
  (sum ys / of_nat (List.length ys))%float.

(** [Series.shift(1)]: every value moves one row down, the first row gets
    [nan], the last value falls off. *)
Definition shift1 (xs : list float) : list float :=
  firstn (List.length xs) (nan :: xs).

(** [np.rint] for magnitudes below 2^52 (larger floats are integers):
    adding and removing 2^52 rounds to the nearest integer, ties to even. *)
Definition rint (x : float) : float :=
  let big := 4503599627370496%float in
  if (abs x <? big)%float then
    if (x <? 0)%float then ((x - big) + big)%float else ((x + big) - big)%float
  else x.

Fixpoint pow10 (n : nat) : float :=
  match n with O => 1%float | S k => (10 * pow10 k)%float end.

(** [round(x, n)] of a numpy float64: scale, [rint], scale back. *)
Definition round (x : float) (n : nat) : float :=
  (rint (x * pow10 n) / pow10 n)%float.

(** [np.clip(c, -1, 1)]. *)
Definition clip (c : float) : float :=
  if (c <? -1)%float then (-1)%float
  else if (1 <? c)%float then 1%float
  else c.

(** [np.corrcoef(a, b)[0, 1]]: the covariances are dot products of the
    centred columns times [1 / (N - 1)], the coefficient is the covariance
    divided by the two standard deviations in turn, clipped to [-1, 1]. *)
Definition corrcoef (a b : list float) : float :=
  let N := List.length a in
  let avg_a := (sum a / of_nat N)%float in
  let avg_b := (sum b / of_nat N)%float in
  let Xa := map (fun v => (v - avg_a)%float) a in
  let Xb := map (fun v => (v - avg_b)%float) b in
  let dot u v := sum (map (fun uv => (fst uv * snd uv)%float) (combine u v)) in
  let fact := if (N <=? 1)%nat then 0%float else of_nat (N - 1) in
  let c00 := (dot Xa Xa * (1 / fact))%float in
  let c01 := (dot Xa Xb * (1 / fact))%float in
  let c11 := (dot Xb Xb * (1 / fact))%float in
  clip (c01 / sqrt c00 / sqrt c11)%float.

(** [a.corr(b)] of pandas (Pearson, [min_periods] of 1): the pairs with a
    [nan] go, then [np.corrcoef]. *)
Definition corr (a b : list float) : float :=
  let valid := filter (fun ab => notna (fst ab) && notna (snd ab))
                      (combine a b) in
  match valid with
  | [] => nan
  | _ => corrcoef (map fst valid) (map snd valid)
  end.

End Np.

(* ================================================================= *)
(** ** The libraries and the services the script relies on *)

(** [SequenceMatcher(None, a, b).ratio()], [Series.corr] (Pearson) and the
    built-in [round] applied to a float. *)
Class PyLibs := {
  ratio : string -> string -> float;
  corr  : list float -> list float -> float;
  round : float -> nat -> float
}.

(** One entry of the mfapi catalogue: a dict with ['schemeCode'] and
    ['schemeName']. *)
Record scheme := { schemeCode : Z; schemeName : string }.

(** One element of [details['data']] after [pd.to_datetime(...,
    errors='coerce')] and [pd.to_numeric(..., errors='coerce')]: a date that
    did not parse is [NaT], a value that did not parse is [nan]. *)
Record nav_record := { rec_date : option Z; rec_nav : float }.

(** The answer of mfapi for one scheme: [meta.get('fund_house', '')] and
    [details.get('data', [])]. *)
Record details := { fund_house : string; data : list nav_record }.

(** One daily bar of the index as downloaded: date, Open, Close. *)
Record ohlc := { ohlc_date : Z; ohlc_open : float; ohlc_close : float }.

(** The remote state of one run: the catalogue, the per-scheme history
    ([None] when the request raises), the index bars for a date range, and
    today's date. *)
Class World := {
  fetch_mf_list    : list scheme;
  fetch_mf_details : Z -> option details;
  yf_download      : Z -> Z -> list ohlc;
  today            : Z
}.

Definition DAYS : Z := 30.

(* ================================================================= *)
(** ** Strings *)

Module Str.

Definition lower_ascii (c : ascii) : ascii :=
  let n := nat_of_ascii c in
  if (65 <=? n)%nat && (n <=? 90)%nat then ascii_of_nat (n + 32) else c.

(** [s.lower()]. *)
Fixpoint lower (s : string) : string :=
  match s with
  | EmptyString => EmptyString
  | String c t => String (lower_ascii c) (lower t)
  end.

(** [c.isspace()] on ASCII: tab to carriage return, the four separators
    28 to 31, and the space. *)
Definition isspace (c : ascii) : bool :=
  let n := nat_of_ascii c in
  ((9 <=? n)%nat && (n <=? 13)%nat) || ((28 <=? n)%nat && (n <=? 32)%nat).

Fixpoint lstrip (s : string) : string :=
  match s with
  | EmptyString => EmptyString
  | String c t => if isspace c then lstrip t else s
  end.

(** [rstrip]: a character goes when it is white and all that follows went. *)
Fixpoint rstrip (s : string) : string :=
  match s with
  | EmptyString => EmptyString
  | String c t =>
      match rstrip t with
      | EmptyString => if isspace c then EmptyString else String c EmptyString
      | t' => String c t'
      end
  end.

(** [s.strip()]. *)
Definition strip (s : string) : string := rstrip (lstrip s).

(** [sub in s]. *)
Fixpoint contains (sub s : string) : bool :=
  prefix sub s ||
  match s with
  | EmptyString => false
  | String _ t => contains sub t
  end.

End Str.

(* ================================================================= *)
(** ** difflib.SequenceMatcher(None, a, b).ratio()

    The matcher of Python's standard library as the script builds it: no
    junk predicate, [autojunk] on.  Sequences are lists of characters and
    positions are naturals. *)

Module Difflib.

Definition Match : Type := nat * nat * nat.

Fixpoint indices (elt : ascii) (b : list ascii) (i : nat) : list nat :=
  match b with
  | [] => []
  | x :: t =>
      if Ascii.eqb x elt then i :: indices elt t (S i) else indices elt t (S i)
  end.

(** [b2j.get(elt, [])] after [__chain_b]: the positions of [elt] in [b],
    or nothing when [b] has 200 elements or more and [elt] takes more
    than [n // 100 + 1] of them. *)
Definition b2j (b : list ascii) (elt : ascii) : list nat :=
  let idxs := indices elt b 0 in
  let n := List.length b in
  if (200 <=? n)%nat && (n / 100 + 1 <? List.length idxs)%nat
  then [] else idxs.

(** [j2len.get(j, 0)]. *)
Fixpoint get (j2len : list (nat * nat)) (j : nat) : nat :=
  match j2len with
  | [] => 0%nat
  | (j', k) :: t => if (j' =? j)%nat then k else get t j
  end.

(** The loop [for j in b2j.get(a[i], nothing)] of [find_longest_match]. *)
Fixpoint scan_row (i blo bhi : nat) (j2len : list (nat * nat))
    (js : list nat) (newj2len : list (nat * nat)) (best : Match)
  : list (nat * nat) * Match :=
  match js with
  | [] => (newj2len, best)
  | j :: t =>
      if (j <? blo)%nat then scan_row i blo bhi j2len t newj2len best
      else if (bhi <=? j)%nat then (newj2len, best)
      else
        let k := (match j with O => O | S j' => get j2len j' end + 1)%nat in
        let newj2len := (j, k) :: newj2len in
        let '(_, _, bestsize) := best in
        let best := if (bestsize <? k)%nat
                    then (i + 1 - k, j + 1 - k, k)%nat else best in
        scan_row i blo bhi j2len t newj2len best
  end.

(** The loop [for i in range(alo, ahi)]. *)
Fixpoint scan_rows (a b : list ascii) (blo bhi : nat) (rows : list nat)
    (j2len : list (nat * nat)) (best : Match) : Match :=
  match rows with
  | [] => best
  | i :: t =>
      let '(newj2len, best) :=
        scan_row i blo bhi j2len (b2j b (nth i a zero)) [] best in
      scan_rows a b blo bhi t newj2len best
  end.

(** The first [while]: the block grows to the left. *)
Fixpoint extend_left (fuel : nat) (a b : list ascii) (alo blo : nat)
    (best : Match) : Match :=
  let '(besti, bestj, bestsize) := best in
  match fuel with
  | O => best
  | S fuel' =>
      if (alo <? besti)%nat && (blo <? bestj)%nat
         && Ascii.eqb (nth (besti - 1) a zero) (nth (bestj - 1) b zero)
      then extend_left fuel' a b alo blo
             (besti - 1, bestj - 1, bestsize + 1)%nat
      else best
  end.

(** The second [while]: the block grows to the right. *)
Fixpoint extend_right (fuel : nat) (a b : list ascii) (ahi bhi : nat)
    (best : Match) : Match :=
  let '(besti, bestj, bestsize) := best in
  match fuel with
  | O => best
  | S fuel' =>
      if (besti + bestsize <? ahi)%nat && (bestj + bestsize <? bhi)%nat
         && Ascii.eqb (nth (besti + bestsize) a zero)
                      (nth (bestj + bestsize) b zero)
      then extend_right fuel' a b ahi bhi (besti, bestj, bestsize + 1)%nat
      else best
  end.

(** [find_longest_match(alo, ahi, blo, bhi)]; the last two [while] loops
    extend over junk, and there is none. *)
Definition find_longest_match (a b : list ascii) (alo ahi blo bhi : nat)
  : Match :=
  let best := scan_rows a b blo bhi (seq alo (ahi - alo)) [] (alo, blo, O) in
  let best := extend_left (fst (fst best)) a b alo blo best in
  extend_right ahi a b ahi bhi best.

(** The loop [while queue] of [get_matching_blocks]; the queue is a stack
    whose top is the head of the list. *)
Fixpoint blocks_loop (fuel : nat) (a b : list ascii)
    (queue : list (nat * nat * nat * nat)) (matching_blocks : list Match)
  : list Match :=
  match fuel, queue with
  | S fuel', (alo, ahi, blo, bhi) :: queue =>
      let x := find_longest_match a b alo ahi blo bhi in
      let '(i, j, k) := x in
      if (k =? 0)%nat then blocks_loop fuel' a b queue matching_blocks
      else
        let queue := if (alo <? i)%nat && (blo <? j)%nat
                     then (alo, i, blo, j) :: queue else queue in
        let queue := if (i + k <? ahi)%nat && (j + k <? bhi)%nat
                     then (i + k, ahi, j + k, bhi)%nat :: queue else queue in
        blocks_loop fuel' a b queue (matching_blocks ++ [x])
  | _, _ => matching_blocks
  end.

(** Tuples compare lexicographically. *)
Definition Match_ltb (x y : Match) : bool :=
  let '(i, j, k) := x in
  let '(i', j', k') := y in
  (i <? i')%nat
  || ((i =? i')%nat && ((j <? j')%nat || ((j =? j')%nat && (k <? k')%nat))).

Fixpoint insert_block (x : Match) (l : list Match) : list Match :=
  match l with
  | [] => [x]
  | y :: t => if Match_ltb x y then x :: l else y :: insert_block x t
  end.

(** [matching_blocks.sort()]. *)
Fixpoint sort_blocks (l : list Match) : list Match :=
  match l with
  | [] => []
  | x :: t => insert_block x (sort_blocks t)
  end.

(** The loop that merges adjacent blocks, from the block at hand. *)
Fixpoint collapse (cur : Match) (l : list Match) : list Match :=
  let '(i1, j1, k1) := cur in
  match l with
  | [] => if (k1 =? 0)%nat then [] else [cur]
  | (i2, j2, k2) :: t =>
      if (i1 + k1 =? i2)%nat && (j1 + k1 =? j2)%nat
      then collapse (i1, j1, (k1 + k2)%nat) t
      else (if (k1 =? 0)%nat then [] else [cur]) ++ collapse (i2, j2, k2) t
  end.

Definition get_matching_blocks (a b : list ascii) : list Match :=
  let la := List.length a in
  let lb := List.length b in
  let matching_blocks :=
    blocks_loop (2 * la + 1) a b [(O, la, O, lb)] [] in
  collapse (O, O, O) (sort_blocks matching_blocks) ++ [(la, lb, O)].

Definition _calculate_ratio (matches length : nat) : float :=
  if (length =? 0)%nat then 1%float
  else (2 * Np.of_nat matches / Np.of_nat length)%float.

Definition ratio (a b : string) : float :=
  let a := list_ascii_of_string a in
  let b := list_ascii_of_string b in
  let matches :=
    fold_left Nat.add (map (fun x => snd x) (get_matching_blocks a b)) O in
  _calculate_ratio matches (List.length a + List.length b).

End Difflib.

(* ================================================================= *)
(** ** Matching a query to a scheme *)

Section Matcher.

(** [SequenceMatcher(None, a, b).ratio()]. *)
Variable ratio : string -> string -> float.

(** [similar(a, b)]. *)
Definition similar (a b : string) : float :=
  ratio (Str.lower a) (Str.lower b).

(** [max(best :: rest, key=key)]: a later item replaces the current one
    only when its key is strictly greater. *)
Fixpoint py_max (key : scheme -> float) (best : scheme) (rest : list scheme)
  : scheme :=
  match rest with
  | [] => best
  | x :: t =>
      if (key best <? key x)%float then py_max key x t else py_max key best t
  end.

(** The [for f in fund_list] loop of the fuzzy fallback, from the state
    [(best, best_score)]. *)
Fixpoint fuzzy_scan (query : string) (fund_list : list scheme)
    (st : option scheme * float) : option scheme * float :=
  match fund_list with
  | [] => st
  | f :: t =>
      let score := similar query (schemeName f) in
      if (snd st <? score)%float
      then fuzzy_scan query t (Some f, score)
      else fuzzy_scan query t st
  end.

Definition substring_matches (fund_list : list scheme) (query : string)
  : list scheme :=
  let query_l := Str.strip (Str.lower query) in
  filter (fun f => Str.contains query_l (Str.lower (schemeName f))) fund_list.

(** [find_best_scheme(fund_list, query)]: the pair [(best, score)]. *)
Definition find_best_scheme (fund_list : list scheme) (query : string)
  : option scheme * float :=
  match substring_matches fund_list query with
  | [f] => (Some f, 1%float)
  | f :: rest =>
      let best := py_max (fun x => similar query (schemeName x)) f rest in
      (Some best, similar query (schemeName best))
  | [] => fuzzy_scan query fund_list (None, 0%float)
  end.

End Matcher.

(* ================================================================= *)
(** ** The frames *)

(** A row of [df[['date', 'NAV']].dropna()]. *)
Record nav_point := { nav_date : Z; NAV : float }.

(** A row of [df] once 'Fund Start', 'Fund End' and 'Fund % Change' exist. *)
Record fund_row := {
  f_date : Z; f_Start : float; f_End : float; f_Change : float
}.

(** A row of [nifty_df]: date, Open, Close, '% Change'. *)
Record nifty_row := {
  n_date : Z; Open : float; Close : float; Change : float
}.

(** A row of [merged], with the column names of the fund sheet. *)
Record merged_row := {
  date : Z;
  Fund_Start : float; Fund_End : float; Fund_Change : float;
  NIFTY_Start : float; NIFTY_End : float; NIFTY_Change : float
}.

Module Frame.

(** [sort_values('date')] as an insertion sort; rows of one date keep
    their order (pandas leaves it open). *)
Fixpoint insert {A} (key : A -> Z) (x : A) (l : list A) : list A :=
  match l with
  | [] => [x]
  | y :: t => if key x <=? key y then x :: l else y :: insert key x t
  end.

Fixpoint sort_values {A} (key : A -> Z) (l : list A) : list A :=
  match l with
  | [] => []
  | x :: t => insert key x (sort_values key t)
  end.

(** [df[['date', 'NAV']].dropna()]: rows with [NaT] or [nan] go. *)
Fixpoint dropna_nav (l : list nav_record) : list nav_point :=
  match l with
  | [] => []
  | r :: t =>
      match rec_date r with
      | Some d =>
          if Np.notna (rec_nav r)
          then {| nav_date := d; NAV := rec_nav r |} :: dropna_nav t
          else dropna_nav t
      | None => dropna_nav t
      end
  end.

(** [pd.merge(df, nifty_df, on='date', how='inner')] and the renaming of
    the index columns: the rows follow the left frame; a left row meets
    every right row of its date, in the right frame's order. *)
Definition merge (df : list fund_row) (nifty_df : list nifty_row)
  : list merged_row :=
  flat_map
    (fun r =>
       map (fun b =>
              {| date := f_date r;
                 Fund_Start := f_Start r; Fund_End := f_End r;
                 Fund_Change := f_Change r;
                 NIFTY_Start := Open b; NIFTY_End := Close b;
                 NIFTY_Change := Change b |})
           (filter (fun b => n_date b =? f_date r) nifty_df))
    df.

(** [merged.dropna(subset=['Fund % Change', 'NIFTY % Change'])]. *)
Definition dropna_changes (merged : list merged_row) : list merged_row :=
  filter (fun r => Np.notna (Fund_Change r) && Np.notna (NIFTY_Change r))
         merged.

End Frame.

(** The tail of [fetch_nifty]: rows without Open or Close go, the rest is
    sorted by date and gets its '% Change'. *)
Definition nifty_frame (bars : list ohlc) : list nifty_row :=
  map (fun b =>
         {| n_date := ohlc_date b; Open := ohlc_open b; Close := ohlc_close b;
            Change := ((ohlc_close b - ohlc_open b) / ohlc_open b * 100)%float |})
      (Frame.sort_values ohlc_date
         (filter (fun b => Np.notna (ohlc_open b) && Np.notna (ohlc_close b))
                 bars)).

(** Lines 160 to 164: parse, clean, sort, and keep the last [DAYS] days. *)
Definition nav_window (data : list nav_record) (start_date : Z)
  : list nav_point :=
  filter (fun p => start_date <=? nav_date p)
         (Frame.sort_values nav_date (Frame.dropna_nav data)).

(** One row of [df] from its point and its 'Fund Start' (lines 172 to 174). *)
Definition fund_row_of (p : nav_point) (Fund_Start : float) : fund_row :=
  let Fund_End := NAV p in
  {| f_date := nav_date p; f_Start := Fund_Start; f_End := Fund_End;
     f_Change := ((Fund_End - Fund_Start) / Fund_Start * 100)%float |}.

(** Lines 171 to 174: 'Fund Start' is the shifted 'NAV' column of the frame
    at hand, 'Fund End' the column itself. *)
Definition fund_frame (df : list nav_point) : list fund_row :=
  map (fun ps => fund_row_of (fst ps) (snd ps))
      (combine df (Np.shift1 (map NAV df))).

(** Lines 160 to 186 for one fund: the aligned rows. *)
Definition aligned (data : list nav_record) (nifty_df : list nifty_row)
    (start_date : Z) : list merged_row :=
  Frame.dropna_changes
    (Frame.merge (fund_frame (nav_window data start_date)) nifty_df).

(* ================================================================= *)
(** ** The metrics of one aligned frame (lines 192 to 224) *)

Definition up_mask (r : merged_row) : bool := (0 <? NIFTY_Change r)%float.
Definition down_mask (r : merged_row) : bool := (NIFTY_Change r <? 0)%float.

(** [merged.loc[mask, column].mean() if mask.any() else np.nan]. *)
Definition masked_mean (mask : merged_row -> bool) (column : merged_row -> float)
    (merged : list merged_row) : float :=
  if existsb mask merged
  then Np.mean (map column (filter mask merged))
  else nan.

Definition avg_nifty_up := masked_mean up_mask NIFTY_Change.
Definition avg_fund_up := masked_mean up_mask Fund_Change.
Definition avg_nifty_down := masked_mean down_mask NIFTY_Change.
Definition avg_fund_down := masked_mean down_mask Fund_Change.

Definition up_capture (merged : list merged_row) : float :=
  let avg_fund_up := avg_fund_up merged in
  let avg_nifty_up := avg_nifty_up merged in
  if Np.notna avg_fund_up && Np.notna avg_nifty_up
     && negb (avg_nifty_up =? 0)%float
  then (avg_fund_up / avg_nifty_up * 100)%float
  else nan.

Definition down_capture (merged : list merged_row) : float :=
  let avg_fund_down := avg_fund_down merged in
  let avg_nifty_down := avg_nifty_down merged in
  if Np.notna avg_fund_down && Np.notna avg_nifty_down
     && negb (avg_nifty_down =? 0)%float
  then (abs avg_fund_down / abs avg_nifty_down * 100)%float
  else nan.

(** [(signs_equal.sum() / len(merged)) * 100]. *)
Definition with_pct (merged : list merged_row) : float :=
  let signs_equal :=
    map (fun r => (Np.sign (Fund_Change r) =? Np.sign (NIFTY_Change r))%float)
        merged in
  (Np.of_nat (List.length (filter (fun b => b) signs_equal))
   / Np.of_nat (List.length merged) * 100)%float.

Definition behavior (corr : float) : string :=
  if Np.notna corr then
    if (0.6 <=? corr)%float then "With Market"
    else if (corr <=? -0.2)%float then "Against Market"
    else "Low/Neutral Corr"
  else "Insufficient Data".

Definition tolerance (up_capture down_capture : float) : string :=
  if Np.notna up_capture && Np.notna down_capture then
    if (100 <? up_capture)%float && (down_capture <? 100)%float then "High"
    else if (up_capture <? 90)%float && (120 <? down_capture)%float then "Low"
    else "Medium"
  else "Unknown".

(** One element of [summary_rows]. *)
Record summary_row := {
  Query : string;
  Matched_Scheme : string;
  Scheme_Code : Z;
  Fund_House : string;
  Data_Points : nat;
  Correlation : option float;
  With_Market_pct : float;
  Avg_Fund_Return : float;
  Avg_Nifty_Return : float;
  Up_Capture : option float;
  Down_Capture : option float;
  Behavior : string;
  Market_Tolerance : string
}.

(** [round(x, n) if pd.notna(x) else None]. *)
Definition round_or_None `{PyLibs} (x : float) (n : nat) : option float :=
  if Np.notna x then Some (round x n) else None.

(* ================================================================= *)
(** ** The run *)

Inductive skip_reason :=
| No_match | Fetch_failed | No_NAV_data | No_NAV_in_window | No_overlap.

(** What one pass of the [for q in fund_queries] loop leaves behind. *)
Inductive outcome :=
| Skipped (why : skip_reason)
| Analyzed (row : summary_row) (sheet : list merged_row).

(** The sheet written besides the fund sheets. *)
Inductive overview :=
| Summary (rows : list summary_row)
| No_Data (message : string).

Section Run.
Context `{PyLibs} `{World}.

(** Lines 192 to 241: the metrics of a frame and its summary row. *)
Definition summarize (q : string) (best : scheme) (house : string)
    (merged : list merged_row) : summary_row :=
  let corr := corr (map Fund_Change merged) (map NIFTY_Change merged) in
  let up_capture := up_capture merged in
  let down_capture := down_capture merged in
  let behavior := behavior corr in
  let tolerance := tolerance up_capture down_capture in
  {| Query := q;
     Matched_Scheme := schemeName best;
     Scheme_Code := schemeCode best;
     Fund_House := house;
     Data_Points := List.length merged;
     Correlation := round_or_None corr 3;
     With_Market_pct := round (with_pct merged) 1;
     Avg_Fund_Return := round (Np.mean (map Fund_Change merged)) 4;
     Avg_Nifty_Return := round (Np.mean (map NIFTY_Change merged)) 4;
     Up_Capture := round_or_None up_capture 1;
     Down_Capture := round_or_None down_capture 1;
     Behavior := behavior;
     Market_Tolerance := tolerance |}.

Definition start_date : Z := today - DAYS.
Definition end_date : Z := today.

(** [fetch_nifty(start_date, end_date)]. *)
Definition fetch_nifty (start_date end_date : Z) : list nifty_row :=
  nifty_frame (yf_download start_date (end_date + 1)).

(** The body of the [for q in fund_queries] loop; every [continue], the
    one of the [except] clause included, is a [Skipped]. *)
Definition analyze_query (mf_list : list scheme) (nifty_df : list nifty_row)
    (q : string) : outcome :=
  match fst (find_best_scheme ratio mf_list q) with
  | None => Skipped No_match
  | Some best =>
      match fetch_mf_details (schemeCode best) with
      | None => Skipped Fetch_failed
      | Some details =>
          match data details with
          | [] => Skipped No_NAV_data
          | _ =>
              match nav_window (data details) start_date with
              | [] => Skipped No_NAV_in_window
              | df =>
                  match Frame.dropna_changes
                          (Frame.merge (fund_frame df) nifty_df) with
                  | [] => Skipped No_overlap
                  | merged =>
                      Analyzed (summarize q best (fund_house details) merged)
                               merged
                  end
              end
          end
      end
  end.

(** [summary_rows] when the loop ends: it starts empty and every
    analyzed query appends its row. *)
Definition summary_rows (mf_list : list scheme) (nifty_df : list nifty_row)
    (fund_queries : list string) : list summary_row :=
  fold_left
    (fun summary_rows q =>
       match analyze_query mf_list nifty_df q with
       | Skipped _ => summary_rows
       | Analyzed row _ => summary_rows ++ [row]
       end)
    fund_queries [].

(** [analyze_funds(fund_queries)], up to the overview sheet. *)
Definition analyze_funds (fund_queries : list string) : overview :=
  let mf_list := fetch_mf_list in
  let nifty_df := fetch_nifty start_date end_date in
  match summary_rows mf_list nifty_df fund_queries with
  | [] => No_Data "No valid fund data found."
  | rows => Summary rows
  end.

End Run.

(* ================================================================= *)
(** ** Sheet names, index columns and the formatting of the summary *)

(** The class of [re.sub(r"[:\\/?*\[\]]", "_", name)]: colon, backslash
    (character 92), slash, question mark, star and the two brackets. *)
Definition invalid_in_sheet_name (c : ascii) : bool :=
  existsb (Ascii.eqb c) [":"; "092"; "/"; "?"; "*"; "["; "]"]%char.

Fixpoint re_sub_invalid (name : string) : string :=
  match name with
  | EmptyString => EmptyString
  | String c t =>
      String (if invalid_in_sheet_name c then "_"%char else c)
             (re_sub_invalid t)
  end.

(** [s[:n]]: a negative [n] counts from the end. *)
Definition slice_to (s : string) (n : Z) : string :=
  let len := Z.of_nat (String.length s) in
  let stop := if n <? 0 then Z.max (len + n) 0 else Z.min n len in
  substring 0 (Z.to_nat stop) s.

(** [sanitize_sheet_name(name, max_len)]. *)
Definition sanitize_sheet_name (name : string) (max_len : Z) : string :=
  let name := re_sub_invalid name in
  if max_len <? Z.of_nat (String.length name)
  then slice_to name max_len
  else name.

(** [str(n)] of an integer. *)
Definition str_int (n : Z) : string :=
  DecimalString.NilEmpty.string_of_int (Z.to_int n).

(** Line 244: the name of the sheet of a matched scheme. *)
Definition sheet_name_of (best : scheme) : string :=
  sanitize_sheet_name
    (str_int (schemeCode best) ++ "_" ++ schemeName best) 31.

(** Lines 117 to 120 of [fetch_nifty]: the first column whose name starts
    with "open" and the first whose name contains "close", case apart;
    [None] stands for the [RuntimeError]. *)
Definition open_close_columns (columns : list string)
  : option (string * string) :=
  let open_col := find (fun c => prefix "open" (Str.lower c)) columns in
  let close_col := find (fun c => Str.contains "close" (Str.lower c)) columns in
  match open_col, close_col with
  | Some open_col, Some close_col => Some (open_col, close_col)
  | _, _ => None
  end.

(** [(cell.value or "").strip()]. *)
Definition cell_text (value : option string) : string :=
  Str.strip (match value with Some v => v | None => EmptyString end).

(** Lines 293 to 302: the fill of a 'Market Tolerance' cell, by its start
    colour; [None] leaves the cell as it is. *)
Definition tolerance_fill (value : option string) : option string :=
  let val := cell_text value in
  if (val =? "High")%string then Some "C6EFCE"%string
  else if (val =? "Medium")%string then Some "FFEB9C"%string
  else if (val =? "Low")%string then Some "FFC7CE"%string
  else None.

(** Lines 304 to 309: the fill of a 'Behavior' cell. *)
Definition behavior_fill (value : option string) : option string :=
  let val := cell_text value in
  if (val =? "Against Market")%string then Some "BDD7EE"%string else None.

(** [l.remove(x)]: the first occurrence goes. *)
Fixpoint list_remove (x : string) (l : list string) : list string :=
  match l with
  | [] => []
  | y :: t => if (y =? x)%string then t else y :: list_remove x t
  end.

(** Lines 282 to 286 on the titles of the sheets: "Summary" moves to the
    first position when the workbook has it. *)
Definition summary_first (sheetnames : list string) : list string :=
  if existsb (String.eqb "Summary") sheetnames
  then "Summary"%string :: list_remove "Summary" sheetnames
  else sheetnames.

(* ================================================================= *)
(** ** A run on a small world *)

(** The libraries as Python, numpy and pandas compute them. *)
Definition python_libs : PyLibs :=
  {| ratio := Difflib.ratio; corr := Np.corr; round := Np.round |}.

(** Three schemes.  The first has five values around the start of the
    window, newest first as mfapi sends them; the request for the second
    fails; the third has one old value.  The index has three bars. *)
Definition demo_world : World :=
  {| fetch_mf_list :=
       [ {| schemeCode := 1; schemeName := "Axis Small Cap Fund" |};
         {| schemeCode := 2; schemeName := "DSP Business Cycle Fund" |};
         {| schemeCode := 3; schemeName := "SBI MNC Fund" |} ];
     fetch_mf_details := fun code =>
       if code =? 1 then
         Some {| fund_house := "Axis Mutual Fund";
                 data := [ {| rec_date := Some 73; rec_nav := 10.3 |};
                           {| rec_date := Some 72; rec_nav := 10.1 |};
                           {| rec_date := Some 71; rec_nav := 10.2 |};
                           {| rec_date := Some 70; rec_nav := 10 |};
                           {| rec_date := Some 69; rec_nav := 9.9 |} ] |}
       else if code =? 3 then
         Some {| fund_house := "SBI Mutual Fund";
                 data := [ {| rec_date := Some 50; rec_nav := 10 |} ] |}
       else None;
     yf_download := fun start stop =>
       filter (fun b => (start <=? ohlc_date b) && (ohlc_date b <? stop))
         [ {| ohlc_date := 71; ohlc_open := 100; ohlc_close := 101 |};
           {| ohlc_date := 72; ohlc_open := 101; ohlc_close := 100 |};
           {| ohlc_date := 73; ohlc_open := 100; ohlc_close := 102 |} ];
     today := 100 |}.

Definition demo_queries : list string :=
  [ "axis small cap"; "DSP Business"; "sbi mnc"; "qqq" ]%string.

(* ================================================================= *)
(** ** The readings the properties compare the program with *)

(** The specification's step 2 of the aligner, in its words: 'Fund Start'
    is derived on the full chronological series and the window is applied
    to the result. *)
Definition spec_fund_frame (data : list nav_record) (start_date : Z)
  : list fund_row :=
  filter (fun r => start_date <=? f_date r)
         (fund_frame (Frame.sort_values nav_date (Frame.dropna_nav data))).

(** The specification's step 1 of the matcher, in its words: the entries
    whose name contains the query, case apart. *)
Definition spec_substring_hits (fund_list : list scheme) (query : string)
  : list scheme :=
  filter (fun f => Str.contains (Str.lower query) (Str.lower (schemeName f)))
         fund_list.

(** The matcher as the specification words it: the substring test on the
    query itself, then the same three cases. *)
Definition spec_find_best_scheme (ratio : string -> string -> float)
    (fund_list : list scheme) (query : string) : option scheme * float :=
  match spec_substring_hits fund_list query with
  | [f] => (Some f, 1%float)
  | f :: rest =>
      let best := py_max (fun x => similar ratio query (schemeName x)) f rest in
      (Some best, similar ratio query (schemeName best))
  | [] => fuzzy_scan ratio query fund_list (None, 0%float)
  end.

(** [m] is the first item of [l] with the greatest key: no item before it
    reaches its key, no item after it exceeds it. *)
Definition first_max (key : scheme -> float) (l : list scheme) (m : scheme)
  : Prop :=
  exists l1 l2,
    l = l1 ++ m :: l2
    /\ (forall f, In f l1 -> (key m <=? key f)%float = false)
    /\ (forall f, In f l2 -> (key m <? key f)%float = false).

(** The aligned series of the fund a query leads to, when the query has a
    match and the history of the match can be fetched. *)
Definition aligned_of_query `{PyLibs} `{World} (mf_list : list scheme)
    (nifty_df : list nifty_row) (q : string) : option (list merged_row) :=
  match fst (find_best_scheme ratio mf_list q) with
  | None => None
  | Some best =>
      match fetch_mf_details (schemeCode best) with
      | None => None
      | Some details => Some (aligned (data details) nifty_df start_date)
      end
  end.

(** Every float but [nan] has a place on a line: a triple of integers
    compared lexicographically (sign class, then exponent, then mantissa,
    the last two negated on the negative side). *)
Definition place (x : spec_float) : Z * Z * Z :=
  match x with
  | S754_infinity true => (-2, 0, 0)
  | S754_finite true m e => (-1, - e, - Zpos m)
  | S754_finite false m e => (1, e, Zpos m)
  | S754_infinity false => (2, 0, 0)
  | _ => (0, 0, 0)
  end.

Definition before (p q : Z * Z * Z) : Prop :=
  let '(a, b, c) := p in
  let '(a', b', c') := q in
  a < a' \/ (a = a' /\ (b < b' \/ (b = b' /\ c < c'))).

(** A float that is [nan] or carries no minus sign. *)
Definition not_negative (x : spec_float) : Prop :=
  match x with
  | S754_zero true | S754_infinity true | S754_finite true _ _ => False
  | _ => True
  end.

(** The order of a frame sorted on [key]. *)
Definition by_key {A} (key : A -> Z) (a b : A) : Prop := key a <= key b.

(** The rows of a frame whose first row starts from [prev]: [fund_frame]
    is the case of [nan]. *)
Definition frame_after (prev : float) (df : list nav_point) : list fund_row :=
  map (fun ps => fund_row_of (fst ps) (snd ps))
      (combine df (firstn (List.length df) (prev :: map NAV df))).

Definition nonempty {A} (o : option (list A)) : bool :=
  match o with Some (_ :: _) => true | _ => false end.

(* ================================================================= *)
(** * Properties *)

(** ** Facts on binary64 values *)

Module NpFacts.

Local Open Scope float_scope.

Lemma Prim2SF_nan : Prim2SF nan = S754_nan.
Proof. reflexivity. Qed.

Lemma SFeqb_refl_not_nan x : SFeqb x x = false -> x = S754_nan.
Proof.
  destruct x as [s|s| |s m e]; trivial; unfold SFeqb, SFcompare.
  - discriminate.
  - destruct s; discriminate.
  - rewrite Z.compare_refl, Pos.compare_cont_refl. destruct s; discriminate.
Qed.

(** There is one [nan]: being [nan] is being equal to it. *)
Lemma is_nan_eq x : is_nan x = true <-> x = nan.
Proof.
  split.
  - unfold is_nan. rewrite FloatAxioms.eqb_spec. intros E.
    apply negb_true_iff, SFeqb_refl_not_nan in E.
    apply Prim2SF_inj. now rewrite E.
  - now intros ->.
Qed.

Lemma notna_false x : Np.notna x = false <-> x = nan.
Proof. unfold Np.notna. rewrite negb_false_iff. apply is_nan_eq. Qed.

Lemma notna_true x : Np.notna x = true <-> x <> nan.
Proof.
  rewrite <- notna_false. destruct (Np.notna x); split; congruence.
Qed.

Lemma div_nan_l y : nan / y = nan.
Proof. apply Prim2SF_inj. now rewrite div_spec. Qed.

Lemma div_nan_r x : x / nan = nan.
Proof.
  apply Prim2SF_inj. rewrite div_spec, Prim2SF_nan.
  now destruct (Prim2SF x).
Qed.

Lemma mul_nan_l y : nan * y = nan.
Proof. apply Prim2SF_inj. now rewrite mul_spec. Qed.

Lemma eqb_nan_l y : (nan =? y) = false.
Proof. now rewrite FloatAxioms.eqb_spec. Qed.

Lemma is_nan_eq_SF x : Prim2SF x <> S754_nan <-> x <> nan.
Proof.
  split; intros K E; apply K.
  - now rewrite E.
  - apply Prim2SF_inj. now rewrite E.
Qed.

(** *** The order of the comparisons *)

Lemma before_trans p q r : before p q -> before q r -> before p r.
Proof. destruct p as [[? ?] ?], q as [[? ?] ?], r as [[? ?] ?]; simpl; lia. Qed.

Lemma before_irrefl p : ~ before p p.
Proof. destruct p as [[? ?] ?]; simpl; lia. Qed.

Lemma not_before_trans p q r : ~ before q p -> ~ before r q -> ~ before r p.
Proof. destruct p as [[? ?] ?], q as [[? ?] ?], r as [[? ?] ?]; simpl; lia. Qed.

Lemma not_before_before p q r : ~ before q p -> before q r -> before p r.
Proof. destruct p as [[? ?] ?], q as [[? ?] ?], r as [[? ?] ?]; simpl; lia. Qed.

Lemma before_not_before p q r : before p q -> ~ before r q -> before p r.
Proof. destruct p as [[? ?] ?], q as [[? ?] ?], r as [[? ?] ?]; simpl; lia. Qed.

Ltac place_case :=
  split;
  [ try discriminate; intros _; repeat split; try discriminate; lia
  | try (intros [_ [_ K]]; exfalso; lia); try tauto; reflexivity ].

Ltac place_cases x y :=
  destruct x as [s|s| |s m e], y as [s'|s'| |s' m' e'];
  try destruct s; try destruct s'; simpl; try place_case;
  (change (PosDef.Pos.compare_cont Eq m m') with (Pos.compare m m');
   destruct (Z.compare_spec e e'); simpl;
   [ subst; destruct (Pos.compare_spec m m'); simpl | | ];
   place_case).

Lemma SFcompare_Lt x y :
  SFcompare x y = Some Lt <->
  x <> S754_nan /\ y <> S754_nan /\ before (place x) (place y).
Proof. place_cases x y. Qed.

Lemma SFcompare_Gt x y :
  SFcompare x y = Some Gt <->
  x <> S754_nan /\ y <> S754_nan /\ before (place y) (place x).
Proof. place_cases x y. Qed.

Lemma SFcompare_None x y :
  SFcompare x y = None <-> x = S754_nan \/ y = S754_nan.
Proof.
  destruct x as [s|s| |s m e], y as [s'|s'| |s' m' e']; simpl;
    split; try discriminate; try tauto; try (intros [K|K]; discriminate);
    try destruct s; try destruct s'; discriminate.
Qed.

(** [x < y] and [x <= y] on floats, read on the line. *)
Lemma ltb_before x y :
  (x <? y) = true <->
  x <> nan /\ y <> nan /\ before (place (Prim2SF x)) (place (Prim2SF y)).
Proof.
  rewrite ltb_spec. unfold SFltb.
  rewrite <- !is_nan_eq_SF, <- SFcompare_Lt.
  destruct (SFcompare _ _) as [[ | | ]|]; split; congruence.
Qed.

Lemma leb_not_before x y :
  (x <=? y) = true <->
  x <> nan /\ y <> nan /\ ~ before (place (Prim2SF y)) (place (Prim2SF x)).
Proof.
  rewrite leb_spec. unfold SFleb.
  pose proof (SFcompare_Gt (Prim2SF x) (Prim2SF y)) as G.
  pose proof (SFcompare_None (Prim2SF x) (Prim2SF y)) as N.
  rewrite <- !is_nan_eq_SF.
  destruct (SFcompare _ _) as [[ | | ]|]; split; try congruence.
  - intros _. repeat split.
    + intros K. assert (Some Eq = None :> option comparison) by (apply N; auto). discriminate.
    + intros K. assert (Some Eq = None :> option comparison) by (apply N; auto). discriminate.
    + intros K. assert (Some Eq = Some Gt :> option comparison) by (apply G; repeat split; auto;
        intros K'; assert (Some Eq = None :> option comparison) by (apply N; auto); discriminate).
      discriminate.
  - intros _. repeat split.
    + intros K. assert (Some Lt = None :> option comparison) by (apply N; auto). discriminate.
    + intros K. assert (Some Lt = None :> option comparison) by (apply N; auto). discriminate.
    + intros K. assert (Some Lt = Some Gt :> option comparison) by (apply G; repeat split; auto;
        intros K'; assert (Some Lt = None :> option comparison) by (apply N; auto); discriminate).
      discriminate.
  - intros [_ [_ K]]. exfalso. apply K. apply G. reflexivity.
  - intros [K1 [K2 _]]. exfalso.
    destruct (proj1 N eq_refl); auto.
Qed.

Lemma ltb_trans x y z : (x <? y) = true -> (y <? z) = true -> (x <? z) = true.
Proof.
  rewrite !ltb_before. intros (? & ? & ?) (? & ? & ?).
  repeat split; trivial. eapply before_trans; eassumption.
Qed.

Lemma leb_trans x y z : (x <=? y) = true -> (y <=? z) = true -> (x <=? z) = true.
Proof.
  rewrite !leb_not_before. intros (? & ? & ?) (? & ? & ?).
  repeat split; trivial. eapply not_before_trans; eassumption.
Qed.

Lemma ltb_irrefl x : (x <? x) = false.
Proof.
  destruct (x <? x) eqn:E; trivial.
  apply ltb_before in E. destruct E as (_ & _ & E). now apply before_irrefl in E.
Qed.

Lemma leb_ltb_trans x y z : (x <=? y) = true -> (y <? z) = true -> (x <? z) = true.
Proof.
  rewrite leb_not_before, !ltb_before. intros (? & ? & ?) (? & ? & ?).
  repeat split; trivial. eapply not_before_before; eassumption.
Qed.

Lemma ltb_leb_false x y : (x <? y) = true -> (y <=? x) = false.
Proof.
  intros L. destruct (y <=? x) eqn:E; trivial.
  pose proof (leb_ltb_trans _ _ _ E L) as K. now rewrite ltb_irrefl in K.
Qed.

Lemma leb_not_nan x y : (x <=? y) = true -> x <> nan /\ y <> nan.
Proof. rewrite leb_not_before. tauto. Qed.

Lemma ltb_not_nan x y : (x <? y) = true -> x <> nan /\ y <> nan.
Proof. rewrite ltb_before. tauto. Qed.

Lemma ltb_leb x y : (x <? y) = true -> (x <=? y) = true.
Proof.
  rewrite ltb_before, leb_not_before. intros (? & ? & K).
  repeat split; trivial. intros K'.
  exact (before_irrefl _ (before_trans _ _ _ K K')).
Qed.

Lemma ltb_leb_trans x y z : (x <? y) = true -> (y <=? z) = true -> (x <? z) = true.
Proof.
  rewrite leb_not_before, !ltb_before. intros (? & ? & ?) (? & ? & ?).
  repeat split; trivial. eapply before_not_before; eassumption.
Qed.



(** A float equal to zero is one of the two zeros. *)
Lemma eqb_zero_SF x : (x =? 0) = true -> exists s, Prim2SF x = S754_zero s.
Proof.
  rewrite FloatAxioms.eqb_spec. change (Prim2SF 0) with (S754_zero false).
  destruct (Prim2SF x) as [s|s| |s m e]; unfold SFeqb; simpl;
    try discriminate; try (destruct s; discriminate).
  now exists s.
Qed.

Lemma is_infinity_SF x s : Prim2SF x = S754_infinity s -> is_infinity x = true.
Proof.
  intros E. unfold is_infinity.
  now rewrite FloatAxioms.eqb_spec, abs_spec, E.
Qed.

(** The change of a value that is neither [nan] nor zero from a start of
    zero: the subtraction returns the value, the division by zero an
    infinity, and the scaling keeps it. *)
Lemma change_from_zero prev cur :
  (prev =? 0) = true -> is_nan cur = false -> (cur =? 0) = false ->
  is_infinity ((cur - prev) / prev * 100) = true.
Proof.
  intros Hp Hn Hz.
  destruct (eqb_zero_SF _ Hp) as [sp Ep].
  assert (Hc : exists s, Prim2SF ((cur - prev) / prev) = S754_infinity s).
  { rewrite div_spec, sub_spec, Ep.
    unfold is_nan in Hn. rewrite FloatAxioms.eqb_spec in Hn, Hz.
    change (Prim2SF 0) with (S754_zero false) in Hz.
    destruct (Prim2SF cur) as [s|s| |s m e]; simpl in *;
      try discriminate; eexists; reflexivity. }
  destruct Hc as [s Es].
  apply (is_infinity_SF _ (xorb s false)).
  rewrite mul_spec, Es. reflexivity.
Qed.

End NpFacts.

(* ================================================================= *)
(** ** The labels *)

Section Labels.

Local Open Scope float_scope.

(** C2, the label as the claim names it: a correlation between the two
    thresholds gets a label that is not "Low/Neutral Correlation". *)
Lemma behavior_neutral_label_differs :
  Np.notna 0 = true /\ (0.6 <=? 0) = false /\ (0 <=? -0.2) = false
  /\ behavior 0 <> "Low/Neutral Correlation"%string.
Proof. repeat split; discriminate. Qed.

(** C2 (amended): with a defined correlation the behavior label is
    "With Market" when correlation >= 0.6, "Against Market" when
    correlation <= -0.2 (the two cannot hold together, the first being
    tested first), and "Low/Neutral Corr" otherwise; with an undefined
    correlation it is "Insufficient Data". *)
Theorem behavior_label (corr : float) :
  ((0.6 <=? corr) = true -> behavior corr = "With Market"%string)
  /\ ((corr <=? -0.2) = true ->
      (0.6 <=? corr) = false /\ behavior corr = "Against Market"%string)
  /\ (Np.notna corr = true -> (0.6 <=? corr) = false ->
      (corr <=? -0.2) = false -> behavior corr = "Low/Neutral Corr"%string)
  /\ (Np.notna corr = false -> behavior corr = "Insufficient Data"%string).
Proof.
  unfold behavior. split; [|split; [|split]].
  - intros E. rewrite E.
    destruct (NpFacts.leb_not_nan _ _ E) as [_ N].
    apply NpFacts.notna_true in N. now rewrite N.
  - intros A.
    assert (E : (0.6 <=? corr) = false).
    { destruct (0.6 <=? corr) eqn:E; trivial.
      pose proof (NpFacts.leb_trans _ _ _ E A) as K. discriminate K. }
    split; trivial.
    destruct (NpFacts.leb_not_nan _ _ A) as [N _].
    apply NpFacts.notna_true in N. now rewrite N, A, E.
  - intros N E1 E2. now rewrite N, E1, E2.
  - intros N. now rewrite N.
Qed.

Lemma tolerance_undefined (up down : float) :
  Np.notna up = false \/ Np.notna down = false ->
  tolerance up down = "Unknown"%string.
Proof.
  unfold tolerance. intros [-> | ->]; trivial. now destruct (Np.notna up).
Qed.

(** C3: with both captures defined the tolerance label is "High" when
    upCapture > 100 and downCapture < 100, else "Low" when upCapture < 90
    and downCapture > 120, else "Medium"; with either capture undefined
    it is "Unknown". *)
Theorem tolerance_label (up down : float) :
  (Np.notna up = true -> Np.notna down = true ->
     tolerance up down =
       if (100 <? up) && (down <? 100) then "High"%string
       else if (up <? 90) && (120 <? down) then "Low"%string
       else "Medium"%string)
  /\ ((100 <? up) = true -> (down <? 100) = true -> tolerance up down = "High"%string)
  /\ ((up <? 90) = true -> (120 <? down) = true -> tolerance up down = "Low"%string)
  /\ (Np.notna up = false \/ Np.notna down = false ->
      tolerance up down = "Unknown"%string).
Proof.
  unfold tolerance. repeat split.
  - intros -> ->. reflexivity.
  - intros U D.
    destruct (NpFacts.ltb_not_nan _ _ U) as [_ Nu].
    destruct (NpFacts.ltb_not_nan _ _ D) as [Nd _].
    apply NpFacts.notna_true in Nu, Nd. now rewrite Nu, Nd, U, D.
  - intros U D.
    destruct (NpFacts.ltb_not_nan _ _ U) as [Nu _].
    destruct (NpFacts.ltb_not_nan _ _ D) as [_ Nd].
    apply NpFacts.notna_true in Nu, Nd. rewrite Nu, Nd, U, D. simpl.
    assert (K : (100 <? up) = false).
    { destruct (100 <? up) eqn:E; trivial.
      pose proof (NpFacts.ltb_trans _ _ _ E U) as K. discriminate K. }
    now rewrite K.
  - apply tolerance_undefined.
Qed.

End Labels.

(* ================================================================= *)
(** ** The capture ratios and the summary row *)

Section Captures.

Local Open Scope float_scope.

Lemma existsb_filter {A} (f : A -> bool) (l : list A) :
  existsb f l = match filter f l with [] => false | _ => true end.
Proof.
  induction l as [|x l IH]; simpl; trivial.
  destruct (f x); simpl; trivial.
Qed.

(** A ratio with a [nan] mean is [nan], whatever the other mean is. *)
Lemma ratio_nan_l y : nan / y * 100 = nan.
Proof. now rewrite NpFacts.div_nan_l, NpFacts.mul_nan_l. Qed.

Lemma ratio_nan_r x : x / nan * 100 = nan.
Proof. now rewrite NpFacts.div_nan_r, NpFacts.mul_nan_l. Qed.

(** The guard of a capture ratio, on the two means. *)
Lemma guarded_ratio (fund nifty num den : float) :
  (fund = nan -> num = nan) -> (nifty = nan -> den = nan) ->
  (if Np.notna fund && Np.notna nifty && negb (nifty =? 0)
   then num / den * 100 else nan)
  = if nifty =? 0 then nan else num / den * 100.
Proof.
  intros Hf Hn.
  destruct (Np.notna fund) eqn:Nf; simpl.
  - destruct (Np.notna nifty) eqn:Nn; simpl.
    + now destruct (nifty =? 0).
    + apply NpFacts.notna_false in Nn. rewrite (Hn Nn). subst nifty.
      now rewrite NpFacts.eqb_nan_l, ratio_nan_r.
  - apply NpFacts.notna_false in Nf. rewrite (Hf Nf), ratio_nan_l.
    now destruct (nifty =? 0).
Qed.

Context `{PyLibs}.

Lemma round_or_None_nan x n : round_or_None x n = None <-> x = nan.
Proof.
  unfold round_or_None. rewrite <- NpFacts.notna_false.
  destruct (Np.notna x); split; congruence.
Qed.

(** C4: with U the rows whose benchChangePct is above 0, upCapture is
    undefined when U is empty or when the mean of benchChangePct over U
    is exactly 0, and is otherwise mean(fundChangePct over U) /
    mean(benchChangePct over U) * 100; with D the rows whose
    benchChangePct is below 0, downCapture is undefined when D is empty or
    on a zero benchmark mean, and is otherwise |mean fund| / |mean bench|
    * 100; an undefined capture is [nan], it is emitted as [None], and
    with either capture undefined no threshold is compared: the tolerance
    is "Unknown". *)
Theorem capture_ratios (merged : list merged_row) :
  let U := filter (fun r => 0 <? NIFTY_Change r) merged in
  let D := filter (fun r => NIFTY_Change r <? 0) merged in
  up_capture merged =
    match U with
    | [] => nan
    | _ :: _ =>
        let fund := Np.mean (map Fund_Change U) in
        let nifty := Np.mean (map NIFTY_Change U) in
        if nifty =? 0 then nan else fund / nifty * 100
    end
  /\ down_capture merged =
    match D with
    | [] => nan
    | _ :: _ =>
        let fund := Np.mean (map Fund_Change D) in
        let nifty := Np.mean (map NIFTY_Change D) in
        if nifty =? 0 then nan else abs fund / abs nifty * 100
    end
  /\ forall q best house,
      let row := summarize q best house merged in
      (Up_Capture row = None <-> up_capture merged = nan)
      /\ (Down_Capture row = None <-> down_capture merged = nan)
      /\ (up_capture merged = nan \/ down_capture merged = nan ->
          Market_Tolerance row = "Unknown"%string).
Proof.
  intros U D.
  change U with (filter up_mask merged).
  change D with (filter down_mask merged). clear U D.
  split; [|split].
  - unfold up_capture, avg_fund_up, avg_nifty_up, masked_mean.
    rewrite existsb_filter.
    destruct (filter up_mask merged) as [|r U]; trivial.
    now apply guarded_ratio.
  - unfold down_capture, avg_fund_down, avg_nifty_down, masked_mean.
    rewrite existsb_filter.
    destruct (filter down_mask merged) as [|r D]; trivial.
    apply guarded_ratio; now intros ->.
  - intros q best house row. subst row. simpl.
    rewrite !round_or_None_nan. repeat split; trivial.
    intros K. apply tolerance_undefined.
    rewrite !NpFacts.notna_false. exact K.
Qed.

(** C8: rounding happens in the summary row and nowhere before: the two
    labels of the row are those of the unrounded correlation and
    captures (so they are the same under any other rounding function),
    while the numbers of the row are the rounded metrics, 3 decimals for
    the correlation, 1 for the percentages and 4 for the mean returns. *)
Theorem rounding_only_on_emission (round' : float -> nat -> float)
    (q : string) (best : scheme) (house : string)
    (merged : list merged_row) :
  let row := summarize q best house merged in
  let row' :=
    @summarize {| ratio := ratio; corr := corr; round := round' |}
               q best house merged in
  let c := corr (map Fund_Change merged) (map NIFTY_Change merged) in
  let up := up_capture merged in
  let down := down_capture merged in
  Behavior row = behavior c
  /\ Market_Tolerance row = tolerance up down
  /\ Behavior row' = Behavior row
  /\ Market_Tolerance row' = Market_Tolerance row
  /\ Correlation row = (if Np.notna c then Some (round c 3) else None)
  /\ Up_Capture row = (if Np.notna up then Some (round up 1) else None)
  /\ Down_Capture row = (if Np.notna down then Some (round down 1) else None)
  /\ With_Market_pct row = round (with_pct merged) 1
  /\ Avg_Fund_Return row = round (Np.mean (map Fund_Change merged)) 4
  /\ Avg_Nifty_Return row = round (Np.mean (map NIFTY_Change merged)) 4.
Proof. repeat split. Qed.

End Captures.

(** Rounding first would change a label: an up capture of about 100.04
    with a down capture of 50 is "High", and "Medium" once rounded. *)
Example rounding_first_would_differ :
  let merged :=
    [ {| date := 1; Fund_Start := 1; Fund_End := 1.0004; Fund_Change := 0.04;
         NIFTY_Start := 1; NIFTY_End := 1.0004; NIFTY_Change := 0.039984 |};
      {| date := 2; Fund_Start := 2; Fund_End := 1.98; Fund_Change := -1;
         NIFTY_Start := 2; NIFTY_End := 1.96; NIFTY_Change := -2 |} ] in
  let up := up_capture merged in
  let down := down_capture merged in
  (100 <? up)%float = true
  /\ Np.round up 1 = 100%float
  /\ down = 50%float
  /\ tolerance up down = "High"%string
  /\ tolerance (Np.round up 1) (Np.round down 1) = "Medium"%string.
Proof. vm_compute. repeat split. Qed.

(* ================================================================= *)
(** ** The frames of one fund *)

Module FrameFacts.

Section Sorting.

Context {A : Type} (key : A -> Z).

Lemma insert_In (x : A) (l : list A) (y : A) :
  In y (Frame.insert key x l) <-> y = x \/ In y l.
Proof.
  induction l as [|z l IH]; simpl.
  - intuition.
  - destruct (key x <=? key z); simpl; rewrite ?IH; intuition.
Qed.

Lemma sort_values_In (l : list A) (y : A) :
  In y (Frame.sort_values key l) <-> In y l.
Proof.
  induction l as [|x l IH]; simpl; [tauto|].
  rewrite insert_In, IH. intuition.
Qed.

Lemma insert_sorted (x : A) (l : list A) :
  StronglySorted (by_key key) l -> StronglySorted (by_key key) (Frame.insert key x l).
Proof.
  induction 1 as [|z l S IH F]; simpl.
  - repeat constructor.
  - destruct (key x <=? key z) eqn:E.
    + apply Z.leb_le in E. constructor.
      * now constructor.
      * constructor; [exact E|].
        eapply Forall_impl; [|exact F]. unfold by_key. intros; lia.
    + apply Z.leb_gt in E. constructor; trivial.
      apply Forall_forall. intros y Hy. apply insert_In in Hy.
      destruct Hy as [->|Hy]; [unfold by_key; lia|].
      rewrite Forall_forall in F. now apply F.
Qed.

Lemma sort_values_sorted (l : list A) :
  StronglySorted (by_key key) (Frame.sort_values key l).
Proof.
  induction l; simpl; [constructor | now apply insert_sorted].
Qed.

Lemma filter_sorted (f : A -> bool) (l : list A) :
  StronglySorted (by_key key) l -> StronglySorted (by_key key) (filter f l).
Proof.
  induction 1 as [|z l S IH F]; simpl; [constructor|].
  destruct (f z); trivial. constructor; trivial.
  apply Forall_forall. intros y Hy. apply filter_In in Hy.
  rewrite Forall_forall in F. now apply F.
Qed.

Lemma sorted_keys (l : list A) :
  StronglySorted (by_key key) l -> StronglySorted Z.le (map key l).
Proof.
  induction 1 as [|z l S IH F]; simpl; constructor; trivial.
  apply Forall_forall. intros k Hk. apply in_map_iff in Hk.
  destruct Hk as (y & <- & Hy). rewrite Forall_forall in F. now apply F.
Qed.

End Sorting.

Lemma dropna_nav_In (data : list nav_record) (p : nav_point) :
  In p (Frame.dropna_nav data) <->
  In {| rec_date := Some (nav_date p); rec_nav := NAV p |} data
  /\ NAV p <> nan.
Proof.
  induction data as [|r data IH]; simpl; [tauto|].
  destruct r as [[d|] v]; simpl.
  - destruct (Np.notna v) eqn:N; simpl; rewrite IH.
    + apply NpFacts.notna_true in N. destruct p as [d' v']; simpl.
      split.
      * intros [E | K]; [inversion E; subst; auto | tauto].
      * intros [[E | K] K']; [inversion E; subst; auto | tauto].
    + apply NpFacts.notna_false in N. destruct p as [d' v']; simpl.
      split; [tauto|]. intros [[E | K] K']; [inversion E; subst; tauto | tauto].
  - rewrite IH. split; [tauto|]. intros [[E | K] K']; [discriminate | tauto].
Qed.

Lemma sorted_app_r (l1 l2 : list Z) :
  StronglySorted Z.le (l1 ++ l2) -> StronglySorted Z.le l2.
Proof.
  induction l1 as [|x l1 IH]; simpl; trivial.
  intros S. apply StronglySorted_inv in S. tauto.
Qed.

(** The points of the window: they come from the data, they carry a value,
    they are not before the start, and they come by ascending date. *)
Lemma nav_window_In (data : list nav_record) (start_date : Z) (p : nav_point) :
  In p (nav_window data start_date) <->
  In {| rec_date := Some (nav_date p); rec_nav := NAV p |} data
  /\ NAV p <> nan /\ start_date <= nav_date p.
Proof.
  unfold nav_window. rewrite filter_In, sort_values_In, dropna_nav_In.
  rewrite Z.leb_le. tauto.
Qed.

Lemma nav_window_sorted (data : list nav_record) (start_date : Z) :
  StronglySorted Z.le (map nav_date (nav_window data start_date)).
Proof.
  apply sorted_keys, filter_sorted, sort_values_sorted.
Qed.

Lemma fund_frame_after (df : list nav_point) :
  fund_frame df = frame_after nan df.
Proof. unfold fund_frame, frame_after, Np.shift1. now rewrite length_map. Qed.

Lemma frame_after_cons (prev : float) (p : nav_point) (df : list nav_point) :
  frame_after prev (p :: df) = fund_row_of p prev :: frame_after (NAV p) df.
Proof. reflexivity. Qed.

Lemma frame_after_dates (prev : float) (df : list nav_point) :
  map f_date (frame_after prev df) = map nav_date df
  /\ map f_End (frame_after prev df) = map NAV df.
Proof.
  revert prev. induction df as [|p df IH]; intros prev; [split; reflexivity|].
  rewrite frame_after_cons. simpl. destruct (IH (NAV p)) as [-> ->]. now split.
Qed.

(** Past the first row, a row starts from the value of the row above. *)
Lemma frame_after_nth (prev : float) (df : list nav_point) (i : nat)
    (p c : nav_point) :
  nth_error df i = Some p -> nth_error df (S i) = Some c ->
  nth_error (frame_after prev df) (S i) = Some (fund_row_of c (NAV p)).
Proof.
  revert prev i. induction df as [|q df IH]; intros prev i Hp Hc.
  - destruct i; discriminate.
  - rewrite frame_after_cons. destruct i as [|i]; simpl in *.
    + inversion Hp; subst q. destruct df as [|c' df]; [discriminate|].
      inversion Hc; subst c'. reflexivity.
    + now apply IH.
Qed.

Lemma frame_after_In (prev : float) (df : list nav_point) (r : fund_row) :
  In r (frame_after prev df) ->
  exists p s, In p df /\ r = fund_row_of p s.
Proof.
  revert prev. induction df as [|q df IH]; intros prev; [intros []|].
  rewrite frame_after_cons. intros [<- | K].
  - exists q, prev. split; [now left | reflexivity].
  - destruct (IH _ K) as (p & s & Hp & ->). exists p, s. split; [now right | reflexivity].
Qed.

(** A row in the middle of a frame. *)
Lemma frame_after_middle (prev : float) (pre post : list nav_point)
    (p c : nav_point) :
  In (fund_row_of c (NAV p)) (frame_after prev (pre ++ p :: c :: post)).
Proof.
  revert prev. induction pre as [|q pre IH]; intros prev; simpl app.
  - rewrite !frame_after_cons. right. now left.
  - rewrite frame_after_cons. right. apply IH.
Qed.

Lemma sub_nan_r (x : float) : (x - nan)%float = nan.
Proof.
  apply Prim2SF_inj. rewrite sub_spec, NpFacts.Prim2SF_nan.
  now destruct (Prim2SF x).
Qed.

Lemma change_without_start (p : nav_point) :
  f_Start (fund_row_of p nan) = nan /\ f_Change (fund_row_of p nan) = nan.
Proof.
  split; trivial. unfold fund_row_of. simpl.
  now rewrite sub_nan_r, NpFacts.div_nan_l, NpFacts.mul_nan_l.
Qed.

(** *** The merge *)

Lemma merge_In (df : list fund_row) (nifty_df : list nifty_row)
    (m : merged_row) :
  In m (Frame.merge df nifty_df) <->
  exists r b, In r df /\ In b nifty_df /\ n_date b = f_date r
    /\ m = {| date := f_date r;
              Fund_Start := f_Start r; Fund_End := f_End r;
              Fund_Change := f_Change r;
              NIFTY_Start := Open b; NIFTY_End := Close b;
              NIFTY_Change := Change b |}.
Proof.
  unfold Frame.merge. rewrite in_flat_map. split.
  - intros (r & Hr & Hm). apply in_map_iff in Hm. destruct Hm as (b & <- & Hb).
    apply filter_In in Hb. destruct Hb as [Hb E]. apply Z.eqb_eq in E.
    now exists r, b.
  - intros (r & b & Hr & Hb & E & ->). exists r. split; trivial.
    apply in_map_iff. exists b. split; trivial.
    apply filter_In. split; trivial. now apply Z.eqb_eq.
Qed.

Lemma merge_sorted (df : list fund_row) (nifty_df : list nifty_row) :
  StronglySorted Z.le (map f_date df) ->
  StronglySorted Z.le (map date (Frame.merge df nifty_df)).
Proof.
  induction df as [|r df IH]; simpl; [constructor|].
  intros S. apply StronglySorted_inv in S. destruct S as [S F].
  specialize (IH S). rewrite map_app, map_map. simpl.
  induction (filter (fun b => n_date b =? f_date r) nifty_df) as [|b l IHl];
    simpl; trivial.
  constructor; trivial.
  apply Forall_forall. intros d Hd. apply in_app_or in Hd.
  destruct Hd as [Hd | Hd].
  - apply in_map_iff in Hd. destruct Hd as (? & <- & _). lia.
  - apply in_map_iff in Hd. destruct Hd as (m & <- & Hm).
    apply merge_In in Hm. destruct Hm as (r' & b' & Hr' & _ & _ & ->). simpl.
    rewrite Forall_forall in F. apply F. now apply in_map.
Qed.

Lemma filter_keys_sorted {A} (key : A -> Z) (f : A -> bool) (l : list A) :
  StronglySorted Z.le (map key l) -> StronglySorted Z.le (map key (filter f l)).
Proof.
  induction l as [|x l IH]; simpl; trivial.
  intros S. apply StronglySorted_inv in S. destruct S as [S F].
  destruct (f x); simpl; auto. constructor; auto.
  apply Forall_forall. intros k Hk. apply in_map_iff in Hk.
  destruct Hk as (y & <- & Hy). apply filter_In in Hy.
  rewrite Forall_forall in F. apply F. apply in_map. tauto.
Qed.

Lemma nifty_frame_In (bars : list ohlc) (b : nifty_row) :
  In b (nifty_frame bars) -> In (n_date b) (map ohlc_date bars).
Proof.
  unfold nifty_frame. intros K. apply in_map_iff in K.
  destruct K as (o & <- & Ho). apply sort_values_In, filter_In in Ho. simpl.
  apply in_map. tauto.
Qed.

End FrameFacts.

Section Aligner.

(** C1, as the specification words it, fails on a series of two points
    whose second opens the window: the earlier point exists (value 10), the
    specification's frame starts the row from it, and the program's frame
    leaves 'Fund Start' and 'Fund % Change' undefined. *)
Lemma first_window_row_has_no_start :
  let navs := [ {| rec_date := Some 1; rec_nav := 10 |};
                {| rec_date := Some 2; rec_nav := 11 |} ] in
  In {| nav_date := 1; NAV := 10 |}
     (Frame.sort_values nav_date (Frame.dropna_nav navs))
  /\ map f_date (fund_frame (nav_window navs 2)) = [2]
  /\ map f_Start (fund_frame (nav_window navs 2)) = [nan]
  /\ map f_Change (fund_frame (nav_window navs 2)) = [nan]
  /\ map f_date (spec_fund_frame navs 2) = [2]
  /\ map f_Start (spec_fund_frame navs 2) = [10%float].
Proof. vm_compute. repeat split. now left. Qed.

(** C1 (amended): the series the rows are built from holds the usable
    points dated on or after the window start and no other, in
    chronological order, so no row is dated before the window start; each
    point's fundStart is the value of the immediately preceding point of
    this windowed series, and fundChangePct follows from it; fundStart is
    undefined for the first point of the window, whether or not an earlier
    point exists before the window start, and for no other point, and the
    first point's fundChangePct is undefined with it. *)
Theorem fund_start_is_previous_in_window (navs : list nav_record)
    (start_date : Z) :
  let df := nav_window navs start_date in
  let frame := fund_frame df in
  (forall p, In p df <->
     In {| rec_date := Some (nav_date p); rec_nav := NAV p |} navs
     /\ NAV p <> nan /\ start_date <= nav_date p)
  /\ StronglySorted Z.le (map nav_date df)
  /\ Forall (fun r => start_date <= f_date r) frame
  /\ map f_date frame = map nav_date df
  /\ map f_End frame = map NAV df
  /\ (forall r, nth_error frame 0 = Some r ->
        f_Start r = nan /\ f_Change r = nan)
  /\ (forall i p c, nth_error df i = Some p -> nth_error df (S i) = Some c ->
        start_date <= nav_date p <= nav_date c
        /\ exists r, nth_error frame (S i) = Some r
          /\ f_date r = nav_date c
          /\ f_Start r = NAV p /\ f_Start r <> nan
          /\ f_End r = NAV c
          /\ f_Change r = ((NAV c - NAV p) / NAV p * 100)%float).
Proof.
  intros df frame. subst frame. rewrite FrameFacts.fund_frame_after.
  destruct (FrameFacts.frame_after_dates nan df) as [Hd He].
  pose proof (FrameFacts.nav_window_sorted navs start_date) as Sd.
  fold df in Sd.
  split; [intros p; apply FrameFacts.nav_window_In|].
  split; [exact Sd|]. split.
  { apply Forall_forall. intros r Hr.
    assert (K : In (f_date r) (map nav_date df))
      by (rewrite <- Hd; now apply in_map).
    apply in_map_iff in K. destruct K as (p & <- & Hp).
    apply FrameFacts.nav_window_In in Hp. tauto. }
  split; [exact Hd|]. split; [exact He|]. split.
  - intros r Hr. destruct df as [|p df']; [discriminate|].
    rewrite FrameFacts.frame_after_cons in Hr. inversion Hr.
    apply FrameFacts.change_without_start.
  - intros i p c Hp Hc. split.
    + split.
      * apply nth_error_In, FrameFacts.nav_window_In in Hp. tauto.
      * apply nth_error_split in Hp. destruct Hp as (l1 & l2 & E & L).
        rewrite E in Sd, Hc. rewrite map_app in Sd. simpl in Sd.
        apply FrameFacts.sorted_app_r in Sd.
        apply StronglySorted_inv in Sd. destruct Sd as [_ F].
        rewrite Forall_forall in F. apply F.
        rewrite nth_error_app2 in Hc by lia.
        replace (S i - List.length l1)%nat with 1%nat in Hc by lia.
        simpl in Hc. destruct l2 as [|c' l2]; [discriminate|].
        inversion Hc; subst. now left.
    + exists (fund_row_of c (NAV p)).
      repeat split; trivial.
      * now apply FrameFacts.frame_after_nth.
      * apply nth_error_In in Hp. apply FrameFacts.nav_window_In in Hp. tauto.
Qed.

Lemma is_infinity_notna (x : float) :
  is_infinity x = true -> Np.notna x = true.
Proof.
  intros I. destruct (Np.notna x) eqn:N; trivial.
  apply NpFacts.notna_false in N. subst x. discriminate I.
Qed.

(** C10: the change is not guarded against a start of zero.  When a point
    of the windowed series has the value 0 and the next one a value that is
    not 0, the next row's 'Fund % Change' is infinite; the rows dropped
    after the merge are those with a [nan] change, so with an index bar on
    that date whose change is defined the row is among the aligned rows. *)
Theorem infinite_change_survives (navs : list nav_record)
    (nifty_df : list nifty_row) (start_date : Z)
    (pre post : list nav_point) (p c : nav_point) (b : nifty_row) :
  nav_window navs start_date = pre ++ p :: c :: post ->
  (NAV p =? 0)%float = true -> (NAV c =? 0)%float = false ->
  In b nifty_df -> n_date b = nav_date c -> Np.notna (Change b) = true ->
  exists m,
    In m (aligned navs nifty_df start_date)
    /\ date m = nav_date c
    /\ Fund_Start m = NAV p /\ Fund_End m = NAV c
    /\ Fund_Change m = ((NAV c - NAV p) / NAV p * 100)%float
    /\ is_infinity (Fund_Change m) = true.
Proof.
  intros W Zp Zc Hb Hd Nb.
  assert (Nc : is_nan (NAV c) = false).
  { assert (K : In c (nav_window navs start_date))
      by (rewrite W; apply in_or_app; right; right; now left).
    apply FrameFacts.nav_window_In in K. destruct K as (_ & K & _).
    apply NpFacts.notna_true in K. now apply negb_true_iff in K. }
  pose proof (NpFacts.change_from_zero _ _ Zp Nc Zc) as I.
  set (r := fund_row_of c (NAV p)).
  exists {| date := f_date r;
            Fund_Start := f_Start r; Fund_End := f_End r;
            Fund_Change := f_Change r;
            NIFTY_Start := Open b; NIFTY_End := Close b;
            NIFTY_Change := Change b |}.
  repeat split; trivial.
  unfold aligned, Frame.dropna_changes. apply filter_In. split.
  - apply FrameFacts.merge_In. exists r, b. repeat split; trivial.
    rewrite W, FrameFacts.fund_frame_after.
    apply FrameFacts.frame_after_middle.
  - simpl. rewrite Nb, andb_true_r. now apply is_infinity_notna.
Qed.

(** A fund worth 0 on day 1 and 5 on day 2, an index bar on day 2. *)
Lemma infinite_change_survives_witness :
  exists m,
    In m (aligned [ {| rec_date := Some 1; rec_nav := 0 |};
                    {| rec_date := Some 2; rec_nav := 5 |} ]
                  (nifty_frame [ {| ohlc_date := 2; ohlc_open := 100;
                                    ohlc_close := 101 |} ])
                  1)
    /\ date m = 2
    /\ Fund_Start m = 0%float /\ Fund_End m = 5%float
    /\ Fund_Change m = ((5 - 0) / 0 * 100)%float
    /\ is_infinity (Fund_Change m) = true.
Proof.
  apply (infinite_change_survives _ _ 1 [] []
           {| nav_date := 1; NAV := 0 |} {| nav_date := 2; NAV := 5 |}
           {| n_date := 2; Open := 100; Close := 101;
              Change := ((101 - 100) / 100 * 100)%float |}).
  - reflexivity.
  - reflexivity.
  - reflexivity.
  - now left.
  - reflexivity.
  - reflexivity.
Defined.

End Aligner.

(* ================================================================= *)
(** ** The run *)

Section RunFacts.

Context `{PyLibs} `{World}.

Lemma aligned_nil (nifty_df : list nifty_row) (start : Z) :
  aligned [] nifty_df start = [].
Proof. reflexivity. Qed.

Lemma aligned_window_nil (navs : list nav_record) (nifty_df : list nifty_row)
    (start : Z) :
  nav_window navs start = [] -> aligned navs nifty_df start = [].
Proof. unfold aligned. now intros ->. Qed.

(** The five exits of the loop body, read on the aligned series. *)
Lemma analyze_query_aligned (mf_list : list scheme) (nifty_df : list nifty_row)
    (q : string) :
  match aligned_of_query mf_list nifty_df q with
  | Some (r :: merged) =>
      exists best details,
        fst (find_best_scheme ratio mf_list q) = Some best
        /\ fetch_mf_details (schemeCode best) = Some details
        /\ analyze_query mf_list nifty_df q =
           Analyzed (summarize q best (fund_house details) (r :: merged))
                    (r :: merged)
  | _ => exists why, analyze_query mf_list nifty_df q = Skipped why
  end.
Proof.
  unfold aligned_of_query, analyze_query.
  destruct (fst (find_best_scheme ratio mf_list q)) as [best|];
    [|now exists No_match].
  destruct (fetch_mf_details (schemeCode best)) as [details|] eqn:Fd;
    [|now exists Fetch_failed].
  destruct (data details) as [|n navs] eqn:D.
  - rewrite aligned_nil. now exists No_NAV_data.
  - destruct (nav_window (n :: navs) start_date) as [|p df] eqn:Wd.
    + rewrite (aligned_window_nil _ _ _ Wd). now exists No_NAV_in_window.
    + unfold aligned. rewrite Wd.
      destruct (Frame.dropna_changes _) as [|r merged].
      * now exists No_overlap.
      * exists best, details. repeat split; trivial.
Qed.

Lemma summary_rows_from (mf_list : list scheme) (nifty_df : list nifty_row)
    (fund_queries : list string) (acc : list summary_row) :
  fold_left
    (fun summary_rows q =>
       match analyze_query mf_list nifty_df q with
       | Skipped _ => summary_rows
       | Analyzed row _ => summary_rows ++ [row]
       end)
    fund_queries acc =
  acc ++ flat_map (fun q => match analyze_query mf_list nifty_df q with
                            | Skipped _ => []
                            | Analyzed row _ => [row]
                            end) fund_queries.
Proof.
  revert acc. induction fund_queries as [|q qs IH]; intros acc; simpl.
  - now rewrite app_nil_r.
  - rewrite IH. destruct (analyze_query mf_list nifty_df q); simpl; trivial.
    now rewrite <- app_assoc.
Qed.

Lemma summary_rows_flat_map (mf_list : list scheme) (nifty_df : list nifty_row)
    (fund_queries : list string) :
  summary_rows mf_list nifty_df fund_queries =
  flat_map (fun q => match analyze_query mf_list nifty_df q with
                     | Skipped _ => []
                     | Analyzed row _ => [row]
                     end) fund_queries.
Proof. unfold summary_rows. now rewrite summary_rows_from. Qed.

Lemma summary_rows_queries (mf_list : list scheme) (nifty_df : list nifty_row)
    (fund_queries : list string) :
  map Query (summary_rows mf_list nifty_df fund_queries) =
  filter (fun q => nonempty (aligned_of_query mf_list nifty_df q)) fund_queries.
Proof.
  rewrite summary_rows_flat_map.
  induction fund_queries as [|q qs IH]; simpl; trivial.
  rewrite map_app, IH.
  pose proof (analyze_query_aligned mf_list nifty_df q) as K.
  destruct (aligned_of_query mf_list nifty_df q) as [[|r merged]|]; simpl.
  - destruct K as [why ->]. reflexivity.
  - destruct K as (best & details & _ & _ & ->). reflexivity.
  - destruct K as [why ->]. reflexivity.
Qed.

(** C9: a query whose fund has no aligned row (or no match, or no history)
    is skipped and adds nothing, the queries after it are processed all the
    same, so the summary rows are, in order, those of the queries with a
    non-empty aligned series and their number is the number of these
    queries; with no such query the run writes the "no data" placeholder,
    and the summary otherwise. *)
Theorem summary_counts_analyzed_funds (fund_queries : list string) :
  let mf_list := fetch_mf_list in
  let nifty_df := fetch_nifty start_date end_date in
  let analyzed :=
    filter (fun q => nonempty (aligned_of_query mf_list nifty_df q))
           fund_queries in
  let rows := summary_rows mf_list nifty_df fund_queries in
  (forall q, nonempty (aligned_of_query mf_list nifty_df q) = false ->
     exists why, analyze_query mf_list nifty_df q = Skipped why)
  /\ (forall before q after,
        nonempty (aligned_of_query mf_list nifty_df q) = false ->
        summary_rows mf_list nifty_df (before ++ q :: after) =
        summary_rows mf_list nifty_df before
        ++ summary_rows mf_list nifty_df after)
  /\ map Query rows = analyzed
  /\ List.length rows = List.length analyzed
  /\ (analyzed = [] ->
      analyze_funds fund_queries = No_Data "No valid fund data found.")
  /\ (analyzed <> [] -> analyze_funds fund_queries = Summary rows).
Proof.
  intros mf_list nifty_df analyzed rows.
  assert (Skip : forall q,
             nonempty (aligned_of_query mf_list nifty_df q) = false ->
             exists why, analyze_query mf_list nifty_df q = Skipped why).
  { intros q N. pose proof (analyze_query_aligned mf_list nifty_df q) as K.
    destruct (aligned_of_query mf_list nifty_df q) as [[|r merged]|];
      trivial; discriminate. }
  assert (Q : map Query rows = analyzed) by apply summary_rows_queries.
  split; [exact Skip|]. split; [|split; [exact Q|split]].
  - intros before q after N. rewrite !summary_rows_flat_map.
    rewrite flat_map_app. simpl. destruct (Skip q N) as [why ->]. reflexivity.
  - rewrite <- Q. now rewrite length_map.
  - unfold analyze_funds. fold mf_list nifty_df rows. split.
    + intros E. rewrite E in Q. now destruct rows.
    + intros NE. destruct rows; trivial. simpl in Q. congruence.
Qed.

(** C7: every aligned row has both changes defined and a date present in
    the fund's history and in the index series, the rows come by ascending
    date, and an aligned series can be empty (it is when the two series
    share no date), in which case the query is skipped: no error arises. *)
Theorem aligned_rows_invariant (navs : list nav_record) (bars : list ohlc)
    (start : Z) :
  let nifty_df := nifty_frame bars in
  let rows := aligned navs nifty_df start in
  Forall (fun r => Np.notna (Fund_Change r) = true
                   /\ Np.notna (NIFTY_Change r) = true
                   /\ In (Some (date r)) (map rec_date navs)
                   /\ In (date r) (map ohlc_date bars)) rows
  /\ StronglySorted Z.le (map date rows)
  /\ ((forall d, In (Some d) (map rec_date navs) ->
                 ~ In d (map ohlc_date bars)) -> rows = [])
  /\ (forall mf_list q,
        aligned_of_query mf_list nifty_df q = Some [] ->
        exists why, analyze_query mf_list nifty_df q = Skipped why).
Proof.
  intros nifty_df rows.
  assert (F : Forall (fun r => Np.notna (Fund_Change r) = true
                   /\ Np.notna (NIFTY_Change r) = true
                   /\ In (Some (date r)) (map rec_date navs)
                   /\ In (date r) (map ohlc_date bars)) rows).
  { apply Forall_forall. intros m Hm. unfold rows, aligned in Hm.
    apply filter_In in Hm. destruct Hm as [Hm N].
    apply andb_true_iff in N. destruct N as [N1 N2].
    apply FrameFacts.merge_In in Hm.
    destruct Hm as (r & b & Hr & Hb & E & ->). simpl in *.
    repeat split; trivial.
    - rewrite FrameFacts.fund_frame_after in Hr.
      apply FrameFacts.frame_after_In in Hr. destruct Hr as (p & s & Hp & ->).
      apply FrameFacts.nav_window_In in Hp. destruct Hp as (Hp & _).
      simpl. now apply (in_map rec_date) in Hp.
    - rewrite <- E. now apply FrameFacts.nifty_frame_In. }
  repeat split; trivial.
  - unfold rows, aligned, Frame.dropna_changes.
    apply FrameFacts.filter_keys_sorted, FrameFacts.merge_sorted.
    rewrite FrameFacts.fund_frame_after.
    destruct (FrameFacts.frame_after_dates nan (nav_window navs start)) as [-> _].
    apply FrameFacts.nav_window_sorted.
  - intros Disjoint. destruct rows as [|r rows']; trivial.
    apply Forall_inv in F. destruct F as (_ & _ & F1 & F2).
    now apply Disjoint in F1.
  - intros mf_list q E.
    pose proof (analyze_query_aligned mf_list nifty_df q) as K.
    now rewrite E in K.
Qed.

End RunFacts.

(* ================================================================= *)
(** ** Strings *)

Module StrFacts.








End StrFacts.

(* ================================================================= *)
(** ** The matcher *)

Section MatcherFacts.

Local Open Scope float_scope.

Section Running_maximum.

Variable key : scheme -> float.

(** A key that beats the current best beats what the best had beaten. *)
Lemma beats_earlier (best x f : scheme) :
  (key best <? key x) = true -> (key best <=? key f) = false ->
  (key x <=? key f) = false.
Proof.
  intros B N. destruct (key x <=? key f) eqn:E; trivial.
  pose proof (NpFacts.ltb_leb _ _ (NpFacts.ltb_leb_trans _ _ _ B E)).
  congruence.
Qed.

Lemma beats_later (best x f : scheme) :
  (key best <? key x) = true -> (key best <? key f) = false ->
  (key x <=? key f) = false.
Proof.
  intros B N. destruct (key x <=? key f) eqn:E; trivial.
  pose proof (NpFacts.ltb_leb_trans _ _ _ B E). congruence.
Qed.

(** [max] from a state where [best] was reached after [pre] and kept
    against [mid]. *)
Lemma py_max_from (rest pre : list scheme) (best : scheme)
    (mid : list scheme) :
  (forall f, In f pre -> (key best <=? key f) = false) ->
  (forall f, In f mid -> (key best <? key f) = false) ->
  first_max key (pre ++ best :: mid ++ rest) (py_max key best rest).
Proof.
  revert pre best mid.
  induction rest as [|x rest IH]; intros pre best mid P M; simpl.
  - exists pre, mid. now rewrite app_nil_r.
  - destruct (key best <? key x) eqn:B.
    + replace (pre ++ best :: mid ++ x :: rest)
        with ((pre ++ best :: mid) ++ x :: [] ++ rest)
        by (now rewrite <- app_assoc).
      apply IH; [|intros f []].
      intros f Hf. apply in_app_or in Hf. destruct Hf as [Hf | [<- | Hf]].
      * eapply beats_earlier; eauto.
      * now apply NpFacts.ltb_leb_false.
      * eapply beats_later; eauto.
    + replace (pre ++ best :: mid ++ x :: rest)
        with (pre ++ best :: (mid ++ [x]) ++ rest)
        by (now rewrite <- app_assoc).
      apply IH; trivial.
      intros f Hf. apply in_app_or in Hf. destruct Hf as [Hf | [<- | []]]; auto.
Qed.

Lemma py_max_first_max (f : scheme) (rest : list scheme) :
  first_max key (f :: rest) (py_max key f rest).
Proof. apply (py_max_from rest [] f []); intros ? []. Qed.

End Running_maximum.

Variable ratio : string -> string -> float.
Variable query : string.

Let sim (f : scheme) : float := similar ratio query (schemeName f).

(** The scan once an entry is held. *)
Lemma fuzzy_scan_from (rest pre : list scheme) (best : scheme)
    (mid : list scheme) :
  (0 <? sim best) = true ->
  (forall f, In f pre -> (sim best <=? sim f) = false) ->
  (forall f, In f mid -> (sim best <? sim f) = false) ->
  exists m,
    fuzzy_scan ratio query rest (Some best, sim best) = (Some m, sim m)
    /\ (0 <? sim m) = true
    /\ first_max sim (pre ++ best :: mid ++ rest) m.
Proof.
  revert pre best mid.
  induction rest as [|x rest IH]; intros pre best mid Z P M; simpl.
  - exists best. repeat split; trivial. exists pre, mid. now rewrite app_nil_r.
  - fold (sim x). destruct (sim best <? sim x) eqn:B.
    + replace (pre ++ best :: mid ++ x :: rest)
        with ((pre ++ best :: mid) ++ x :: [] ++ rest)
        by (now rewrite <- app_assoc).
      apply IH; [eapply NpFacts.ltb_trans; eauto| |intros f []].
      intros f Hf. apply in_app_or in Hf. destruct Hf as [Hf | [<- | Hf]].
      * eapply (beats_earlier sim); eauto.
      * now apply NpFacts.ltb_leb_false.
      * eapply (beats_later sim); eauto.
    + replace (pre ++ best :: mid ++ x :: rest)
        with (pre ++ best :: (mid ++ [x]) ++ rest)
        by (now rewrite <- app_assoc).
      apply IH; trivial.
      intros f Hf. apply in_app_or in Hf. destruct Hf as [Hf | [<- | []]]; auto.
Qed.

(** The scan while no entry is held. *)
Lemma fuzzy_scan_start (rest pre : list scheme) :
  (forall f, In f pre -> (0 <? sim f) = false) ->
  (fuzzy_scan ratio query rest (None, 0) = (None, 0)
   /\ forall f, In f (pre ++ rest) -> (0 <? sim f) = false)
  \/ (exists m,
        fuzzy_scan ratio query rest (None, 0) = (Some m, sim m)
        /\ (0 <? sim m) = true
        /\ first_max sim (pre ++ rest) m).
Proof.
  revert pre. induction rest as [|x rest IH]; intros pre P; simpl.
  - left. now rewrite app_nil_r.
  - fold (sim x). destruct (0 <? sim x) eqn:B.
    + right.
      destruct (fuzzy_scan_from rest pre x [] B) as (m & E & Z & F).
      * intros f Hf. specialize (P f Hf).
        destruct (sim x <=? sim f) eqn:L; trivial.
        pose proof (NpFacts.ltb_leb_trans _ _ _ B L). congruence.
      * intros f [].
      * now exists m.
    + replace (pre ++ x :: rest) with ((pre ++ [x]) ++ rest)
        by (now rewrite <- app_assoc).
      apply IH. intros f Hf. apply in_app_or in Hf.
      destruct Hf as [Hf | [<- | []]]; auto.
Qed.

(** The three cases of [find_best_scheme], by the list of hits. *)
Lemma find_best_scheme_by_hits (fund_list : list scheme) :
  let hits := substring_matches fund_list query in
  let result := find_best_scheme ratio fund_list query in
  (forall f, hits = [f] -> result = (Some f, 1))
  /\ (forall f g rest, hits = f :: g :: rest ->
        exists best, result = (Some best, sim best) /\ first_max sim hits best)
  /\ (hits = [] ->
        (result = (None, 0) /\ forall f, In f fund_list -> (0 <? sim f) = false)
        \/ (exists best, result = (Some best, sim best)
              /\ (0 <? sim best) = true /\ first_max sim fund_list best)).
Proof.
  intros hits result. unfold result, find_best_scheme. fold hits.
  repeat split.
  - now intros f ->.
  - intros f g rest ->. exists (py_max sim f (g :: rest)). split; trivial.
    apply py_max_first_max.
  - intros ->. apply (fuzzy_scan_start fund_list []). intros f [].
Qed.

(** C5 (amended): the matcher collects the entries whose name contains
    the query once the query is stripped of surrounding white space, case
    apart.  One hit is returned with score 1.0; of several hits the one
    with the greatest similarity to the query is returned with that
    similarity, the first of them on a tie; with no hit the whole catalogue
    is scanned and the first entry with the greatest similarity is returned
    with it, provided that similarity exceeds 0.  No entry is returned
    exactly when there is no hit and no entry's similarity exceeds 0 (an
    empty catalogue included). *)
Theorem find_best_scheme_cases (fund_list : list scheme) :
  let hits :=
    filter (fun f => Str.contains (Str.strip (Str.lower query))
                                  (Str.lower (schemeName f))) fund_list in
  let result := find_best_scheme ratio fund_list query in
  (forall f, hits = [f] -> result = (Some f, 1))
  /\ (forall f g rest, hits = f :: g :: rest ->
        exists best, result = (Some best, sim best) /\ first_max sim hits best)
  /\ (hits = [] ->
        (result = (None, 0) /\ forall f, In f fund_list -> (0 <? sim f) = false)
        \/ (exists best, result = (Some best, sim best)
              /\ (0 <? sim best) = true /\ first_max sim fund_list best))
  /\ (fst result = None <->
      hits = [] /\ forall f, In f fund_list -> (0 <? sim f) = false).
Proof.
  intros hits result.
  pose proof (find_best_scheme_by_hits fund_list) as K. cbv zeta in K.
  unfold substring_matches in K. fold hits result in K.
  clearbody hits result. destruct K as (One & Many & Scan).
  split; [exact One|]. split; [exact Many|]. split; [exact Scan|].
  split.
  - intros N. destruct hits as [|f [|g rest]].
    + destruct (Scan eq_refl) as [[_ K] | (best & R & _)]; [now split|].
      rewrite R in N. discriminate.
    + rewrite (One f eq_refl) in N. discriminate.
    + destruct (Many f g rest eq_refl) as (best & R & _).
      rewrite R in N. discriminate.
  - intros [E K]. destruct (Scan E) as [[R _] | (best & R & Z & F)].
    + now rewrite R.
    + destruct F as (l1 & l2 & L & _). specialize (K best).
      rewrite K in Z; [discriminate|]. rewrite L. apply in_or_app. right. now left.
Qed.

(** What a hit list yields lies between the keys it holds. *)
Lemma first_max_In (key : scheme -> float) (l : list scheme) (m : scheme) :
  first_max key l m -> In m l.
Proof. intros (l1 & l2 & -> & _). apply in_or_app. right. now left. Qed.



End MatcherFacts.

(** C5, as the specification words it, fails on a query with a leading
    space: no name contains the query itself, so the specification scans
    the catalogue and scores the match 0.25, while the program tests the
    stripped query, finds one hit and scores it 1.0.  And on the empty
    query every entry is a hit: an entry is returned although no entry's
    similarity exceeds 0. *)
Lemma substring_test_strips_query :
  let best := {| schemeCode := 120503;
                 schemeName := "Axis Small Cap Fund Regular" |} in
  let fund_list := [ best ] in
  let query := " Axis"%string in
  (spec_substring_hits fund_list query = []
   /\ spec_find_best_scheme Difflib.ratio fund_list query
      = (Some best, 0.25%float)
   /\ substring_matches fund_list query = [ best ]
   /\ find_best_scheme Difflib.ratio fund_list query = (Some best, 1%float))
  /\ (find_best_scheme Difflib.ratio fund_list "" = (Some best, 1%float)
      /\ (0 <? similar Difflib.ratio "" (schemeName best))%float = false).
Proof. vm_compute. repeat split. Qed.


Example find_best_scheme_on_name :
  find_best_scheme Difflib.ratio
    [ {| schemeCode := 1; schemeName := "Axis Small Cap Fund" |};
      {| schemeCode := 2; schemeName := "Axis Small Cap" |};
      {| schemeCode := 3; schemeName := "DSP Business Cycle Fund" |} ]
    "AXIS small cap"
  = (Some {| schemeCode := 2; schemeName := "Axis Small Cap" |}, 1%float).
Proof. vm_compute. reflexivity. Qed.

(* ================================================================= *)
(** ** The model at work *)

(** Of four queries one is analyzed: the second fails to fetch, the third
    has no value in the window, the fourth matches no scheme. *)
Example demo_run :
  exists rows,
    @analyze_funds python_libs demo_world demo_queries = Summary rows
    /\ map (fun r => (Query r, Scheme_Code r, Data_Points r,
                      Behavior r, Market_Tolerance r)) rows
       = [ ("axis small cap", 1, 3%nat, "With Market", "High")%string ].
Proof. eexists. split; vm_compute; reflexivity. Qed.

Example demo_outcomes :
  map (fun q =>
         match @analyze_query python_libs demo_world
                 (@fetch_mf_list demo_world)
                 (@fetch_nifty demo_world (@start_date demo_world)
                               (@end_date demo_world)) q with
         | Skipped why => Some why
         | Analyzed _ _ => None
         end) demo_queries
  = [ None; Some Fetch_failed; Some No_NAV_in_window; Some No_match ].
Proof. vm_compute. reflexivity. Qed.

(** Three points and bars on the last two dates: two aligned rows, each
    starting from the value of the point before. *)
Example aligned_three_points :
  map (fun r => (date r, Fund_Start r, Fund_End r))
      (aligned [ {| rec_date := Some 0; rec_nav := 10 |};
                 {| rec_date := Some 1; rec_nav := 11 |};
                 {| rec_date := Some 2; rec_nav := 9 |} ]
               (nifty_frame [ {| ohlc_date := 1; ohlc_open := 100;
                                 ohlc_close := 101 |};
                              {| ohlc_date := 2; ohlc_open := 101;
                                 ohlc_close := 99 |} ])
               0)
  = [ (1, 10%float, 11%float); (2, 11%float, 9%float) ].
Proof. vm_compute. reflexivity. Qed.

(** Two hits: the name closer to the query wins. *)
Example two_hits_closest_wins :
  find_best_scheme Difflib.ratio
    [ {| schemeCode := 1; schemeName := "Axis Small Cap Direct Fund" |};
      {| schemeCode := 2; schemeName := "Axis Small Cap Fund" |} ]
    "Axis Small Cap"
  = (Some {| schemeCode := 2; schemeName := "Axis Small Cap Fund" |},
     (2 * 14 / 33)%float).
Proof. vm_compute. reflexivity. Qed.

(** Equal changes on both sides: correlation 1, captures of 100, the fund
    goes with the market and its tolerance is "Medium". *)
Example identical_changes :
  let merged :=
    map (fun dc =>
           {| date := fst dc; Fund_Start := 1; Fund_End := 1;
              Fund_Change := snd dc;
              NIFTY_Start := 1; NIFTY_End := 1; NIFTY_Change := snd dc |})
        [ (1, 1%float); (2, (-2)%float); (3, 3%float); (4, (-1)%float) ] in
  let row := @summarize python_libs "q"
               {| schemeCode := 1; schemeName := "s" |} "h" merged in
  Correlation row = Some 1%float
  /\ With_Market_pct row = 100%float
  /\ Up_Capture row = Some 100%float /\ Down_Capture row = Some 100%float
  /\ Behavior row = "With Market"%string
  /\ Market_Tolerance row = "Medium"%string.
Proof. vm_compute. repeat split. Qed.

(* ================================================================= *)
(** ** Sheet names *)

Module SheetFacts.

Local Open Scope string_scope.
Local Open Scope Z_scope.

Lemma length_re_sub (s : string) :
  String.length (re_sub_invalid s) = String.length s.
Proof. induction s as [|c s IH]; simpl; congruence. Qed.

Lemma underscore_valid : invalid_in_sheet_name "_" = false.
Proof. reflexivity. Qed.

Lemma re_sub_valid (s : string) (c : ascii) :
  In c (list_ascii_of_string (re_sub_invalid s)) ->
  invalid_in_sheet_name c = false.
Proof.
  induction s as [|d s IH]; simpl; [intros []|].
  intros [<- | K]; [|now apply IH].
  destruct (invalid_in_sheet_name d) eqn:E; trivial.
Qed.

Lemma re_sub_clean (s : string) :
  (forall c, In c (list_ascii_of_string s) -> invalid_in_sheet_name c = false) ->
  re_sub_invalid s = s.
Proof.
  induction s as [|d s IH]; simpl; trivial. intros K.
  rewrite (K d) by now left. f_equal. apply IH. intros c Hc. apply K. now right.
Qed.

Lemma re_sub_app (a b : string) :
  re_sub_invalid (a ++ b) = re_sub_invalid a ++ re_sub_invalid b.
Proof. induction a as [|c a IH]; simpl; congruence. Qed.

Lemma length_prefix (k : nat) (s : string) :
  String.length (substring 0 k s) = Nat.min k (String.length s).
Proof.
  revert k. induction s as [|c s IH]; intros [|k]; simpl; trivial.
  now rewrite IH.
Qed.

Lemma prefix_all (k : nat) (s : string) :
  (String.length s <= k)%nat -> substring 0 k s = s.
Proof.
  revert k. induction s as [|c s IH]; intros [|k]; simpl; trivial.
  - lia.
  - intros L. f_equal. apply IH. lia.
Qed.

Lemma prefix_In (k : nat) (s : string) (c : ascii) :
  In c (list_ascii_of_string (substring 0 k s)) ->
  In c (list_ascii_of_string s).
Proof.
  revert k. induction s as [|d s IH]; intros [|k]; simpl; trivial.
  - intros [].
  - intros [E | K]; [now left | right; eauto].
Qed.

Lemma prefix_app (k : nat) (a b : string) :
  (String.length a <= k)%nat ->
  substring 0 k (a ++ b) = a ++ substring 0 (k - String.length a) b.
Proof.
  revert k. induction a as [|c a IH]; intros k; simpl.
  - now rewrite Nat.sub_0_r.
  - destruct k as [|k]; [lia|]. intros L. simpl. f_equal. apply IH. lia.
Qed.

(** With a limit that is not negative the name is cut to the limit. *)
Lemma sanitize_prefix (name : string) (max_len : Z) :
  0 <= max_len ->
  sanitize_sheet_name name max_len
  = substring 0 (Z.to_nat max_len) (re_sub_invalid name).
Proof.
  intros P. unfold sanitize_sheet_name, slice_to.
  destruct (max_len <? Z.of_nat (String.length (re_sub_invalid name))) eqn:E.
  - apply Z.ltb_lt in E. replace (max_len <? 0) with false by (symmetry; apply Z.ltb_ge; lia).
    f_equal. lia.
  - apply Z.ltb_ge in E. symmetry. apply prefix_all. lia.
Qed.

(** X1: the length of a sanitized name is the smaller of the length of
    the name and the limit when the limit is not negative, so the name is
    never longer than the limit; a negative limit takes that many
    characters off the end instead. *)
Theorem sanitize_length (name : string) (max_len : Z) :
  Z.of_nat (String.length (sanitize_sheet_name name max_len))
  = if max_len <? 0
    then Z.max (Z.of_nat (String.length name) + max_len) 0
    else Z.min (Z.of_nat (String.length name)) max_len.
Proof.
  destruct (max_len <? 0) eqn:N.
  - apply Z.ltb_lt in N. unfold sanitize_sheet_name, slice_to.
    replace (max_len <? Z.of_nat (String.length (re_sub_invalid name)))
      with true by (symmetry; apply Z.ltb_lt; lia).
    replace (max_len <? 0) with true by (symmetry; apply Z.ltb_lt; lia).
    rewrite length_prefix, length_re_sub. lia.
  - apply Z.ltb_ge in N. rewrite sanitize_prefix by trivial.
    rewrite length_prefix, length_re_sub. lia.
Qed.

Lemma sanitize_In (name : string) (max_len : Z) (c : ascii) :
  In c (list_ascii_of_string (sanitize_sheet_name name max_len)) ->
  In c (list_ascii_of_string (re_sub_invalid name)).
Proof.
  unfold sanitize_sheet_name, slice_to.
  destruct (max_len <? _); trivial. apply prefix_In.
Qed.

(** X2: whatever the name and the limit, the sanitized name holds none of
    the seven characters Excel refuses in a sheet name. *)
Theorem sanitize_valid (name : string) (max_len : Z) (c : ascii) :
  In c (list_ascii_of_string (sanitize_sheet_name name max_len)) ->
  invalid_in_sheet_name c = false
  /\ c <> ":"%char /\ c <> "092"%char /\ c <> "/"%char /\ c <> "?"%char
  /\ c <> "*"%char /\ c <> "["%char /\ c <> "]"%char.
Proof.
  intros K. apply sanitize_In, re_sub_valid in K. split; trivial.
  repeat split; intros ->; discriminate K.
Qed.

Lemma sanitize_valid_witness :
  let c := "_"%char in
  invalid_in_sheet_name c = false
  /\ c <> ":"%char /\ c <> "092"%char /\ c <> "/"%char /\ c <> "?"%char
  /\ c <> "*"%char /\ c <> "["%char /\ c <> "]"%char.
Proof.
  apply (sanitize_valid "Axis: Small/Cap" 31 "_"%char).
  vm_compute. right. right. right. right. now left.
Defined.

Lemma sanitize_fixed (name : string) (max_len : Z) :
  0 <= max_len ->
  (forall c, In c (list_ascii_of_string name) ->
             invalid_in_sheet_name c = false) ->
  Z.of_nat (String.length name) <= max_len ->
  sanitize_sheet_name name max_len = name.
Proof.
  intros P C L. rewrite sanitize_prefix by trivial.
  rewrite (re_sub_clean _ C). apply prefix_all. lia.
Qed.

(** X3: with a limit that is not negative, sanitizing twice is sanitizing
    once. *)
Theorem sanitize_idempotent (name : string) (max_len : Z) :
  0 <= max_len ->
  sanitize_sheet_name (sanitize_sheet_name name max_len) max_len
  = sanitize_sheet_name name max_len.
Proof.
  intros P. apply sanitize_fixed; trivial.
  - intros c K. now apply sanitize_In, re_sub_valid in K.
  - rewrite sanitize_prefix by trivial.
    rewrite length_prefix, length_re_sub. lia.
Qed.

Lemma sanitize_idempotent_witness :
  sanitize_sheet_name
    (sanitize_sheet_name "120503_Axis Small Cap Fund: Direct/Growth" 31) 31
  = sanitize_sheet_name "120503_Axis Small Cap Fund: Direct/Growth" 31.
Proof. apply (sanitize_idempotent _ 31). lia. Defined.

(** X4: with a limit that is not negative, a name comes back unchanged
    exactly when it holds no refused character and is not longer than the
    limit. *)
Theorem sanitize_unchanged_iff (name : string) (max_len : Z) :
  0 <= max_len ->
  (sanitize_sheet_name name max_len = name <->
   (forall c, In c (list_ascii_of_string name) ->
              invalid_in_sheet_name c = false)
   /\ Z.of_nat (String.length name) <= max_len).
Proof.
  intros P. split.
  - intros E. split.
    + intros c K. rewrite <- E in K. now apply sanitize_In, re_sub_valid in K.
    + apply (f_equal String.length) in E.
      rewrite sanitize_prefix, length_prefix, length_re_sub in E by trivial. lia.
  - intros [C L]. now apply sanitize_fixed.
Qed.

Lemma sanitize_unchanged_iff_witness :
  sanitize_sheet_name "120503_Axis Small Cap" 31 = "120503_Axis Small Cap" <->
  (forall c, In c (list_ascii_of_string "120503_Axis Small Cap") ->
             invalid_in_sheet_name c = false)
  /\ Z.of_nat (String.length "120503_Axis Small Cap") <= 31.
Proof. apply (sanitize_unchanged_iff _ 31). lia. Defined.

(** *** The sheet of a scheme *)

Lemma string_of_uint_chars (u : Decimal.uint) (c : ascii) :
  In c (list_ascii_of_string (NilEmpty.string_of_uint u)) ->
  invalid_in_sheet_name c = false /\ c <> "_"%char
  /\ c <> "S"%char /\ c <> "N"%char.
Proof.
  induction u; simpl; [intros [] | ..];
    (intros [<- | K];
     [repeat split; try reflexivity; discriminate | now apply IHu]).
Qed.

(** [str(n)] is made of digits after a possible minus sign. *)
Lemma str_int_chars (n : Z) (c : ascii) :
  In c (list_ascii_of_string (str_int n)) ->
  invalid_in_sheet_name c = false /\ c <> "_"%char
  /\ c <> "S"%char /\ c <> "N"%char.
Proof.
  unfold str_int. destruct (Z.to_int n) as [u|u];
    unfold NilEmpty.string_of_int.
  - apply string_of_uint_chars.
  - change (list_ascii_of_string (String "-" (NilEmpty.string_of_uint u)))
      with ("-"%char :: list_ascii_of_string (NilEmpty.string_of_uint u)).
    intros [<- | K];
      [repeat split; try reflexivity; discriminate
      | exact (string_of_uint_chars u c K)].
Qed.

Lemma str_int_nonempty (n : Z) : str_int n <> "".
Proof.
  unfold str_int. destruct n as [|p|p]; simpl.
  - discriminate.
  - pose proof (DecimalPos.Unsigned.to_uint_nonnil p) as K.
    destruct (Pos.to_uint p); simpl; congruence.
  - discriminate.
Qed.

Lemma str_int_inj (n m : Z) : str_int n = str_int m -> n = m.
Proof.
  unfold str_int. intros E. apply DecimalZ.to_int_inj.
  apply (f_equal NilEmpty.int_of_string) in E.
  rewrite !NilEmpty.isi in E. congruence.
Qed.

Lemma str_int_clean (n : Z) : re_sub_invalid (str_int n) = str_int n.
Proof. apply re_sub_clean. intros c K. now apply str_int_chars in K. Qed.

(** Two strings that agree up to and with their first underscore. *)
Lemma first_underscore (d1 d2 x y : string) :
  (forall c, In c (list_ascii_of_string d1) -> c <> "_"%char) ->
  (forall c, In c (list_ascii_of_string d2) -> c <> "_"%char) ->
  d1 ++ String "_" x = d2 ++ String "_" y -> d1 = d2.
Proof.
  revert d2. induction d1 as [|c d1 IH]; intros [|c' d2] C1 C2 E; simpl in *;
    trivial.
  - inversion E; subst. exfalso. apply (C2 "_"%char); auto.
  - inversion E; subst. exfalso. apply (C1 "_"%char); auto.
  - inversion E; subst. f_equal. apply IH; auto.
Qed.

Lemma sheet_name_split (best : scheme) :
  (String.length (str_int (schemeCode best)) <= 30)%nat ->
  sheet_name_of best
  = str_int (schemeCode best)
    ++ String "_"
         (substring 0 (30 - String.length (str_int (schemeCode best)))
                    (re_sub_invalid (schemeName best))).
Proof.
  intros L. unfold sheet_name_of. rewrite sanitize_prefix by lia.
  rewrite re_sub_app, str_int_clean. simpl re_sub_invalid.
  change (Z.to_nat 31) with 31%nat.
  rewrite prefix_app by lia. f_equal.
  replace (31 - String.length (str_int (schemeCode best)))%nat
    with (S (30 - String.length (str_int (schemeCode best)))) by lia.
  reflexivity.
Qed.

(** X5: when the decimal code of a scheme has at most 30 characters, its
    sheet name is the code, an underscore, and the scheme name sanitized
    to what is left of the 31 characters. *)
Theorem sheet_name_parts (best : scheme) :
  (String.length (str_int (schemeCode best)) <= 30)%nat ->
  sheet_name_of best
  = str_int (schemeCode best) ++ "_"
    ++ sanitize_sheet_name
         (schemeName best)
         (30 - Z.of_nat (String.length (str_int (schemeCode best)))).
Proof.
  intros L. rewrite sheet_name_split by trivial.
  rewrite sanitize_prefix by lia.
  replace (Z.to_nat (30 - Z.of_nat (String.length (str_int (schemeCode best)))))
    with (30 - String.length (str_int (schemeCode best)))%nat by lia.
  reflexivity.
Qed.

Lemma sheet_name_parts_witness :
  sheet_name_of {| schemeCode := 120503;
                   schemeName := "Axis Small Cap Fund - Direct Plan - Growth" |}
  = "120503" ++ "_"
    ++ sanitize_sheet_name "Axis Small Cap Fund - Direct Plan - Growth"
                           (30 - 6).
Proof.
  apply (sheet_name_parts
           {| schemeCode := 120503;
              schemeName := "Axis Small Cap Fund - Direct Plan - Growth" |}).
  vm_compute. lia.
Defined.

(** X6: two schemes whose decimal codes have at most 30 characters get the
    same sheet name only when they have the same code: the sheets of two
    funds never collide. *)
Theorem sheet_names_tell_codes (b1 b2 : scheme) :
  (String.length (str_int (schemeCode b1)) <= 30)%nat ->
  (String.length (str_int (schemeCode b2)) <= 30)%nat ->
  sheet_name_of b1 = sheet_name_of b2 ->
  schemeCode b1 = schemeCode b2.
Proof.
  intros L1 L2 E. rewrite !sheet_name_split in E by trivial.
  apply str_int_inj. eapply first_underscore; [| |exact E];
    intros c K; now apply str_int_chars in K.
Qed.

(** Two entries of one code whose names differ in a refused character. *)
Lemma sheet_names_tell_codes_witness :
  sheet_name_of {| schemeCode := 7; schemeName := "A/B" |}
  = sheet_name_of {| schemeCode := 7; schemeName := "A:B" |}
  /\ schemeCode {| schemeCode := 7; schemeName := "A/B" |}
     = schemeCode {| schemeCode := 7; schemeName := "A:B" |}.
Proof.
  split; [reflexivity|].
  apply (sheet_names_tell_codes {| schemeCode := 7; schemeName := "A/B" |}
                                {| schemeCode := 7; schemeName := "A:B" |}).
  - vm_compute. lia.
  - vm_compute. lia.
  - reflexivity.
Defined.

(** X7: the sheet of a scheme is never named "Summary" nor "No_Data": a
    fund sheet cannot take the place of the overview sheet. *)
Theorem sheet_name_not_overview (best : scheme) :
  sheet_name_of best <> "Summary" /\ sheet_name_of best <> "No_Data".
Proof.
  unfold sheet_name_of. rewrite sanitize_prefix by lia. rewrite re_sub_app.
  rewrite str_int_clean.
  pose proof (str_int_nonempty (schemeCode best)) as NE.
  pose proof (str_int_chars (schemeCode best)) as C.
  destruct (str_int (schemeCode best)) as [|c t]; [congruence|].
  specialize (C c (or_introl eq_refl)). destruct C as (_ & _ & CS & CN).
  change (Z.to_nat 31) with 31%nat. simpl.
  split; intros E; inversion E; congruence.
Qed.

End SheetFacts.

(* ================================================================= *)
(** ** More on the frames *)

Module AlignFacts.

Section Sorted_once.

Context {A : Type} (key : A -> Z).

Lemma insert_perm (x : A) (l : list A) :
  Permutation (x :: l) (Frame.insert key x l).
Proof.
  induction l as [|y l IH]; simpl; trivial.
  destruct (key x <=? key y); trivial.
  rewrite perm_swap. now constructor.
Qed.

Lemma sort_values_perm (l : list A) : Permutation l (Frame.sort_values key l).
Proof.
  induction l as [|x l IH]; simpl; trivial.
  rewrite <- insert_perm. now constructor.
Qed.

(** Two sorted frames with the same rows and no date twice are the same
    frame. *)
Lemma sorted_unique (l l' : list A) :
  StronglySorted (by_key key) l -> StronglySorted (by_key key) l' ->
  NoDup (map key l) -> Permutation l l' -> l = l'.
Proof.
  revert l'. induction l as [|a t IH]; intros l' S S' N P.
  - apply Permutation_nil in P. now subst.
  - destruct l' as [|b t'].
    + apply Permutation_sym, Permutation_nil in P. discriminate.
    + apply StronglySorted_inv in S. destruct S as [S F].
      apply StronglySorted_inv in S'. destruct S' as [S' F'].
      rewrite Forall_forall in F, F'.
      inversion N as [|k ks Nk Nt]; subst.
      assert (E : a = b).
      { assert (Ha : In a (b :: t'))
          by (eapply Permutation_in; [exact P | now left]).
        assert (Hb : In b (a :: t))
          by (eapply Permutation_in; [apply Permutation_sym; exact P | now left]).
        destruct Ha as [Ha | Ha]; [congruence|].
        destruct Hb as [Hb | Hb]; [congruence|].
        specialize (F b Hb). specialize (F' a Ha). unfold by_key in F, F'.
        exfalso. apply Nk. replace (key a) with (key b) by lia.
        now apply in_map. }
      subst b. f_equal. apply IH; trivial.
      now apply Permutation_cons_inv in P.
Qed.

End Sorted_once.

Lemma dropna_nav_perm (l l' : list nav_record) :
  Permutation l l' ->
  Permutation (Frame.dropna_nav l) (Frame.dropna_nav l').
Proof.
  induction 1 as [|r l l' P IH|r r' l|l l' l'' P1 IH1 P2 IH2]; simpl.
  - constructor.
  - destruct (rec_date r); trivial. destruct (Np.notna (rec_nav r)); trivial.
    now constructor.
  - destruct (rec_date r), (rec_date r'); trivial;
      destruct (Np.notna (rec_nav r)), (Np.notna (rec_nav r')); trivial.
    apply perm_swap.
  - now transitivity (Frame.dropna_nav l').
Qed.

Lemma one_bar_a_day (nifty_df : list nifty_row) (d : Z) :
  NoDup (map n_date nifty_df) ->
  (List.length (filter (fun b => (n_date b =? d)%Z) nifty_df) <= 1)%nat.
Proof.
  induction nifty_df as [|b l IH]; simpl; [lia|].
  intros N. inversion N as [|k ks Nk Nl]; subst. specialize (IH Nl).
  destruct (n_date b =? d) eqn:E; trivial.
  apply Z.eqb_eq in E. simpl.
  destruct (filter (fun b0 => n_date b0 =? d) l) as [|b' l'] eqn:Fl; simpl; [lia|].
  exfalso. apply Nk.
  assert (K : In b' (filter (fun b0 => n_date b0 =? d) l))
    by (rewrite Fl; now left).
  apply filter_In in K. destruct K as [K1 K2]. apply Z.eqb_eq in K2.
  rewrite E, <- K2. now apply in_map.
Qed.

Lemma merge_length (df : list fund_row) (nifty_df : list nifty_row) :
  NoDup (map n_date nifty_df) ->
  (List.length (Frame.merge df nifty_df) <= List.length df)%nat.
Proof.
  intros N. induction df as [|r df IH]; simpl; trivial.
  rewrite length_app, length_map.
  pose proof (one_bar_a_day nifty_df (f_date r) N). lia.
Qed.

Lemma filter_length {A} (f : A -> bool) (l : list A) :
  (List.length (filter f l) <= List.length l)%nat.
Proof.
  induction l as [|x l IH]; simpl; trivial. destruct (f x); simpl; lia.
Qed.

(** The rows a frame row without start gives to the merge are all dropped. *)
Lemma first_row_dropped (p : nav_point) (rest : list fund_row)
    (nifty_df : list nifty_row) :
  Frame.dropna_changes (Frame.merge (fund_row_of p nan :: rest) nifty_df)
  = Frame.dropna_changes (Frame.merge rest nifty_df).
Proof.
  unfold Frame.dropna_changes. simpl. rewrite filter_app.
  match goal with |- ?l ++ _ = _ => assert (E : l = []) end; [|now rewrite E].
  destruct (FrameFacts.change_without_start p) as [_ C].
  unfold fund_row_of in C. simpl in C.
  induction (filter (fun b => n_date b =? nav_date p) nifty_df) as [|b l IH];
    simpl; trivial.
  destruct (Np.notna ((NAV p - nan) / nan * 100)) eqn:N; [|exact IH].
  rewrite C in N. discriminate N.
Qed.

Lemma aligned_cons (navs : list nav_record) (nifty_df : list nifty_row)
    (start : Z) (p : nav_point) (rest : list nav_point) :
  nav_window navs start = p :: rest ->
  aligned navs nifty_df start
  = Frame.dropna_changes (Frame.merge (frame_after (NAV p) rest) nifty_df).
Proof.
  intros W. unfold aligned.
  rewrite W, FrameFacts.fund_frame_after, FrameFacts.frame_after_cons.
  apply first_row_dropped.
Qed.

Lemma nifty_frame_In_iff (bars : list ohlc) (b : nifty_row) :
  In b (nifty_frame bars) <->
  exists o, In o bars
    /\ ohlc_open o <> nan /\ ohlc_close o <> nan
    /\ b = {| n_date := ohlc_date o; Open := ohlc_open o;
              Close := ohlc_close o;
              Change := ((ohlc_close o - ohlc_open o) / ohlc_open o
                         * 100)%float |}.
Proof.
  unfold nifty_frame. rewrite in_map_iff. split.
  - intros (o & <- & Ho). apply FrameFacts.sort_values_In, filter_In in Ho.
    destruct Ho as [Ho N]. apply andb_true_iff in N.
    rewrite !NpFacts.notna_true in N. exists o. tauto.
  - intros (o & Ho & No & Nc & ->). exists o. split; trivial.
    apply FrameFacts.sort_values_In, filter_In. split; trivial.
    apply andb_true_iff. now rewrite !NpFacts.notna_true.
Qed.

(** X8: the index frame holds exactly the downloaded bars that have both
    an Open and a Close: each of its rows comes from such a bar, with the
    change (Close - Open) / Open * 100, every such bar has its row, and
    the rows come by ascending date. *)
Theorem nifty_frame_rows (bars : list ohlc) :
  let nifty_df := nifty_frame bars in
  (forall b, In b nifty_df <->
     exists o, In o bars
       /\ ohlc_open o <> nan /\ ohlc_close o <> nan
       /\ b = {| n_date := ohlc_date o; Open := ohlc_open o;
                 Close := ohlc_close o;
                 Change := ((ohlc_close o - ohlc_open o) / ohlc_open o
                            * 100)%float |})
  /\ StronglySorted Z.le (map n_date nifty_df)
  /\ List.length nifty_df
     = List.length (filter (fun o => Np.notna (ohlc_open o)
                                     && Np.notna (ohlc_close o)) bars).
Proof.
  intros nifty_df. subst nifty_df. split; [|split].
  - intros b. apply nifty_frame_In_iff.
  - unfold nifty_frame. rewrite map_map. simpl.
    apply FrameFacts.sorted_keys, FrameFacts.sort_values_sorted.
  - unfold nifty_frame. rewrite length_map. symmetry.
    apply Permutation_length, sort_values_perm.
Qed.

(** X9: the change of the index is not guarded against an Open of zero: a
    bar with Open 0 and a Close that is neither missing nor 0 gets an
    infinite '% Change' in the index frame. *)
Theorem zero_open_infinite_change (bars : list ohlc) (o : ohlc) :
  In o bars -> (ohlc_open o =? 0)%float = true ->
  Np.notna (ohlc_close o) = true -> (ohlc_close o =? 0)%float = false ->
  exists b, In b (nifty_frame bars)
    /\ n_date b = ohlc_date o /\ Open b = ohlc_open o /\ Close b = ohlc_close o
    /\ is_infinity (Change b) = true.
Proof.
  intros Ho Zo Nc Zc.
  exists {| n_date := ohlc_date o; Open := ohlc_open o; Close := ohlc_close o;
            Change := ((ohlc_close o - ohlc_open o) / ohlc_open o * 100)%float |}.
  repeat split; simpl.
  - unfold nifty_frame. apply in_map_iff. exists o. split; trivial.
    apply FrameFacts.sort_values_In, filter_In. split; trivial.
    rewrite Nc, andb_true_r. apply NpFacts.notna_true. intros E.
    rewrite E in Zo. discriminate Zo.
  - apply NpFacts.change_from_zero; trivial.
    unfold Np.notna in Nc. now apply negb_true_iff in Nc.
Qed.

Lemma zero_open_infinite_change_witness :
  exists b,
    In b (nifty_frame [ {| ohlc_date := 71; ohlc_open := 0;
                           ohlc_close := 101 |} ])
    /\ n_date b = 71 /\ Open b = 0%float /\ Close b = 101%float
    /\ is_infinity (Change b) = true.
Proof.
  apply (zero_open_infinite_change
           [ {| ohlc_date := 71; ohlc_open := 0; ohlc_close := 101 |} ]
           {| ohlc_date := 71; ohlc_open := 0; ohlc_close := 101 |}).
  - now left.
  - reflexivity.
  - reflexivity.
  - reflexivity.
Defined.

Lemma change_needs_start (e s : float) :
  ((e - s) / s * 100)%float <> nan -> s <> nan.
Proof.
  intros K ->. apply K.
  now rewrite FrameFacts.sub_nan_r, NpFacts.div_nan_l, NpFacts.mul_nan_l.
Qed.

(** X10: in every aligned row all the six values are defined, the two
    changes are those of the row's own start and end values, and the date
    is not before the start of the window. *)
Theorem aligned_row_complete (navs : list nav_record) (bars : list ohlc)
    (start : Z) (r : merged_row) :
  In r (aligned navs (nifty_frame bars) start) ->
  (Fund_Start r <> nan /\ Fund_End r <> nan /\ Fund_Change r <> nan
   /\ NIFTY_Start r <> nan /\ NIFTY_End r <> nan /\ NIFTY_Change r <> nan)
  /\ Fund_Change r
     = ((Fund_End r - Fund_Start r) / Fund_Start r * 100)%float
  /\ NIFTY_Change r
     = ((NIFTY_End r - NIFTY_Start r) / NIFTY_Start r * 100)%float
  /\ start <= date r.
Proof.
  intros K. unfold aligned, Frame.dropna_changes in K.
  apply filter_In in K. destruct K as [K N].
  apply andb_true_iff in N. rewrite !NpFacts.notna_true in N.
  destruct N as [N1 N2].
  apply FrameFacts.merge_In in K. destruct K as (f & b & Hf & Hb & E & ->).
  simpl in *.
  rewrite FrameFacts.fund_frame_after in Hf.
  apply FrameFacts.frame_after_In in Hf. destruct Hf as (p & s & Hp & ->).
  apply FrameFacts.nav_window_In in Hp. destruct Hp as (_ & Np' & St).
  apply nifty_frame_In_iff in Hb.
  destruct Hb as (o & _ & No & Nc & ->). simpl in *.
  repeat split; trivial.
  now apply change_needs_start in N1.
Qed.

Lemma aligned_row_complete_witness :
  let r := {| date := 2; Fund_Start := 10; Fund_End := 11;
              Fund_Change := ((11 - 10) / 10 * 100)%float;
              NIFTY_Start := 100; NIFTY_End := 101;
              NIFTY_Change := ((101 - 100) / 100 * 100)%float |} in
  (Fund_Start r <> nan /\ Fund_End r <> nan /\ Fund_Change r <> nan
   /\ NIFTY_Start r <> nan /\ NIFTY_End r <> nan /\ NIFTY_Change r <> nan)
  /\ Fund_Change r
     = ((Fund_End r - Fund_Start r) / Fund_Start r * 100)%float
  /\ NIFTY_Change r
     = ((NIFTY_End r - NIFTY_Start r) / NIFTY_Start r * 100)%float
  /\ 1 <= date r.
Proof.
  apply (aligned_row_complete
           [ {| rec_date := Some 2; rec_nav := 11 |};
             {| rec_date := Some 1; rec_nav := 10 |} ]
           [ {| ohlc_date := 2; ohlc_open := 100; ohlc_close := 101 |} ] 1).
  now left.
Defined.

(** X11: with at most one index bar a day, a fund has fewer aligned rows
    than points in the window: the first point has no start and never
    gives a row. *)
Theorem aligned_fewer_than_points (navs : list nav_record)
    (nifty_df : list nifty_row) (start : Z) :
  NoDup (map n_date nifty_df) ->
  (List.length (aligned navs nifty_df start)
   <= Nat.pred (List.length (nav_window navs start)))%nat.
Proof.
  intros N. destruct (nav_window navs start) as [|p rest] eqn:W.
  - unfold aligned. now rewrite W.
  - rewrite (aligned_cons _ _ _ _ _ W). simpl.
    unfold Frame.dropna_changes.
    etransitivity; [apply filter_length|].
    etransitivity; [apply merge_length; exact N|].
    unfold frame_after. rewrite length_map, length_combine, length_firstn.
    simpl. rewrite length_map. lia.
Qed.

Lemma aligned_fewer_than_points_witness :
  let navs := [ {| rec_date := Some 2; rec_nav := 11 |};
                {| rec_date := Some 1; rec_nav := 10 |} ] in
  let nifty_df :=
    nifty_frame
      [ {| ohlc_date := 1; ohlc_open := 100; ohlc_close := 101 |};
        {| ohlc_date := 2; ohlc_open := 101; ohlc_close := 102 |} ] in
  let start := 1 in
  (List.length (aligned navs nifty_df start)
   <= Nat.pred (List.length (nav_window navs start)))%nat.
Proof.
  apply aligned_fewer_than_points.
  vm_compute. repeat constructor; simpl; intuition discriminate.
Defined.

(** X12: a fund with a single point in the window has no aligned row,
    whatever the index. *)
Theorem single_point_not_aligned (navs : list nav_record)
    (nifty_df : list nifty_row) (start : Z) (p : nav_point) :
  nav_window navs start = [p] -> aligned navs nifty_df start = [].
Proof. intros W. now rewrite (aligned_cons _ _ _ _ _ W). Qed.

Lemma single_point_not_aligned_witness :
  aligned [ {| rec_date := Some 2; rec_nav := 11 |};
            {| rec_date := Some 1; rec_nav := 10 |} ]
          (nifty_frame
             [ {| ohlc_date := 2; ohlc_open := 101; ohlc_close := 102 |} ])
          2
  = [].
Proof.
  apply (single_point_not_aligned _ _ _ {| nav_date := 2; NAV := 11 |}).
  reflexivity.
Defined.

(** X13: when no date occurs twice among the usable points of a fund, the
    order in which the points arrive does not matter: two listings of the
    same points give the same window and the same aligned rows. *)
Theorem aligned_order_free (navs navs' : list nav_record)
    (nifty_df : list nifty_row) (start : Z) :
  Permutation navs navs' ->
  NoDup (map nav_date (Frame.dropna_nav navs)) ->
  nav_window navs start = nav_window navs' start
  /\ aligned navs nifty_df start = aligned navs' nifty_df start.
Proof.
  intros P N.
  assert (E : Frame.sort_values nav_date (Frame.dropna_nav navs)
              = Frame.sort_values nav_date (Frame.dropna_nav navs')).
  { apply (sorted_unique nav_date).
    - apply FrameFacts.sort_values_sorted.
    - apply FrameFacts.sort_values_sorted.
    - eapply Permutation_NoDup; [|exact N].
      apply Permutation_map, sort_values_perm.
    - rewrite <- !sort_values_perm. now apply dropna_nav_perm. }
  unfold aligned, nav_window. now rewrite E.
Qed.

Lemma aligned_order_free_witness :
  let navs := [ {| rec_date := Some 2; rec_nav := 11 |};
                {| rec_date := Some 1; rec_nav := 10 |} ] in
  let nifty_df :=
    nifty_frame [ {| ohlc_date := 2; ohlc_open := 101; ohlc_close := 102 |} ] in
  nav_window navs 1 = nav_window (rev navs) 1
  /\ aligned navs nifty_df 1 = aligned (rev navs) nifty_df 1.
Proof.
  apply aligned_order_free.
  - apply Permutation_rev.
  - vm_compute. repeat constructor; simpl; intuition discriminate.
Defined.

End AlignFacts.

(* ================================================================= *)
(** ** More on the matcher and the run *)

Section MatchFacts.

Variable ratio : string -> string -> float.

Lemma find_best_scheme_In (fund_list : list scheme) (query : string)
    (best : scheme) (score : float) :
  find_best_scheme ratio fund_list query = (Some best, score) ->
  In best fund_list.
Proof.
  intros R.
  destruct (find_best_scheme_by_hits ratio query fund_list) as (One & Many & Scan).
  assert (Hit : forall x, In x (substring_matches fund_list query) ->
                          In x fund_list)
    by (intros x K; now apply filter_In in K).
  destruct (substring_matches fund_list query) as [|f [|g rest]] eqn:E.
  - destruct (Scan eq_refl) as [[R' _] | (m & R' & _ & F)];
      rewrite R' in R; inversion R; subst.
    eapply first_max_In; eauto.
  - rewrite (One f eq_refl) in R. inversion R; subst. apply Hit. now left.
  - destruct (Many f g rest eq_refl) as (m & R' & F).
    rewrite R' in R. inversion R; subst. apply Hit.
    eapply first_max_In; eauto.
Qed.

(** X14: the matcher never invents an entry: what it returns is an entry
    of the catalogue; when some name contains the stripped query the entry
    returned is one of these names; otherwise its similarity to the query
    exceeds 0 and is the score. *)
Theorem find_best_scheme_member (fund_list : list scheme) (query : string)
    (best : scheme) (score : float) :
  find_best_scheme ratio fund_list query = (Some best, score) ->
  In best fund_list
  /\ (substring_matches fund_list query <> [] ->
      Str.contains (Str.strip (Str.lower query))
                   (Str.lower (schemeName best)) = true)
  /\ (substring_matches fund_list query = [] ->
      score = similar ratio query (schemeName best)
      /\ (0 <? score)%float = true).
Proof.
  intros R.
  destruct (find_best_scheme_by_hits ratio query fund_list) as (One & Many & Scan).
  assert (Hit : forall x, In x (substring_matches fund_list query) ->
                In x fund_list
                /\ Str.contains (Str.strip (Str.lower query))
                                (Str.lower (schemeName x)) = true).
  { intros x K. now apply filter_In in K. }
  destruct (substring_matches fund_list query) as [|f [|g rest]] eqn:E.
  - destruct (Scan eq_refl) as [[R' _] | (m & R' & Z & F)];
      rewrite R' in R; inversion R; subst.
    repeat split; trivial; [|congruence].
    eapply first_max_In; eauto.
  - rewrite (One f eq_refl) in R. inversion R; subst.
    destruct (Hit best (or_introl eq_refl)) as [I C].
    repeat split; trivial; discriminate.
  - destruct (Many f g rest eq_refl) as (m & R' & F).
    rewrite R' in R. inversion R; subst.
    apply first_max_In in F. destruct (Hit best F) as [I C].
    repeat split; trivial; discriminate.
Qed.

End MatchFacts.

Lemma find_best_scheme_member_witness :
  let fund_list :=
    [ {| schemeCode := 1; schemeName := "Axis Small Cap Fund" |};
      {| schemeCode := 2; schemeName := "DSP Business Cycle Fund" |} ] in
  let best := {| schemeCode := 2; schemeName := "DSP Business Cycle Fund" |} in
  In best fund_list
  /\ (substring_matches fund_list " dsp business " <> [] ->
      Str.contains (Str.strip (Str.lower " dsp business "))
                   (Str.lower (schemeName best)) = true)
  /\ (substring_matches fund_list " dsp business " = [] ->
      1%float = similar Difflib.ratio " dsp business " (schemeName best)
      /\ (0 <? 1)%float = true).
Proof.
  apply (find_best_scheme_member Difflib.ratio _ " dsp business "). reflexivity.
Defined.

Section RunMore.

Context `{PyLibs} `{World}.

(** The summary of two lists of queries in a row is the summary of the
    first followed by the summary of the second. *)
Lemma summary_rows_app (mf_list : list scheme) (nifty_df : list nifty_row)
    (qs1 qs2 : list string) :
  summary_rows mf_list nifty_df (qs1 ++ qs2)
  = summary_rows mf_list nifty_df qs1 ++ summary_rows mf_list nifty_df qs2.
Proof. rewrite !summary_rows_flat_map. apply flat_map_app. Qed.

Lemma behavior_one_of_four (c : float) :
  In (behavior c)
     [ "With Market"; "Against Market"; "Low/Neutral Corr";
       "Insufficient Data" ]%string.
Proof.
  unfold behavior.
  destruct (Np.notna c), (0.6 <=? c)%float, (c <=? -0.2)%float; simpl; tauto.
Qed.

Lemma tolerance_one_of_four (up down : float) :
  In (tolerance up down) [ "High"; "Low"; "Medium"; "Unknown" ]%string.
Proof.
  unfold tolerance.
  destruct (Np.notna up && Np.notna down),
    ((100 <? up)%float && (down <? 100)%float),
    ((up <? 90)%float && (120 <? down)%float); simpl; tauto.
Qed.

(** X15: every summary row answers one of the queries, names a scheme of
    the catalogue by its code and name, counts at least one data point,
    and carries one of the four behavior labels and one of the four
    tolerance labels. *)
Theorem summary_row_sound (mf_list : list scheme) (nifty_df : list nifty_row)
    (fund_queries : list string) (row : summary_row) :
  In row (summary_rows mf_list nifty_df fund_queries) ->
  In (Query row) fund_queries
  /\ (exists best, In best mf_list
        /\ Scheme_Code row = schemeCode best
        /\ Matched_Scheme row = schemeName best)
  /\ (1 <= Data_Points row)%nat
  /\ In (Behavior row)
        [ "With Market"; "Against Market"; "Low/Neutral Corr";
          "Insufficient Data" ]%string
  /\ In (Market_Tolerance row) [ "High"; "Low"; "Medium"; "Unknown" ]%string.
Proof.
  rewrite summary_rows_flat_map, in_flat_map. intros (q & Hq & K).
  pose proof (analyze_query_aligned mf_list nifty_df q) as A.
  destruct (aligned_of_query mf_list nifty_df q) as [[|r merged]|].
  - destruct A as [why A]. rewrite A in K. destruct K.
  - destruct A as (best & details & M & _ & A). rewrite A in K.
    destruct K as [<- | []]. simpl.
    split; trivial. split; [|split; [lia|split]].
    + exists best. repeat split.
      destruct (find_best_scheme ratio mf_list q) as [b s] eqn:R.
      simpl in M. subst b.
      now apply find_best_scheme_In in R.
    + apply behavior_one_of_four.
    + apply tolerance_one_of_four.
  - destruct A as [why A]. rewrite A in K. destruct K.
Qed.

End RunMore.

Lemma summary_row_sound_witness :
  let mf_list := @fetch_mf_list demo_world in
  let nifty_df :=
    @fetch_nifty demo_world (@start_date demo_world) (@end_date demo_world) in
  exists row,
    In row (@summary_rows python_libs demo_world mf_list nifty_df demo_queries)
    /\ In (Query row) demo_queries
    /\ (exists best, In best mf_list
          /\ Scheme_Code row = schemeCode best
          /\ Matched_Scheme row = schemeName best)
    /\ (1 <= Data_Points row)%nat
    /\ In (Behavior row)
          [ "With Market"; "Against Market"; "Low/Neutral Corr";
            "Insufficient Data" ]%string
    /\ In (Market_Tolerance row) [ "High"; "Low"; "Medium"; "Unknown" ]%string.
Proof.
  intros mf_list nifty_df.
  assert (E : exists row,
             hd_error (@summary_rows python_libs demo_world mf_list nifty_df
                                     demo_queries) = Some row)
    by (vm_compute; eexists; reflexivity).
  destruct E as [row E]. exists row.
  assert (I : In row (@summary_rows python_libs demo_world mf_list nifty_df
                                    demo_queries)).
  { destruct (@summary_rows python_libs demo_world mf_list nifty_df
                            demo_queries); [discriminate|].
    inversion E. now left. }
  split; [exact I|].
  exact (@summary_row_sound python_libs demo_world _ _ _ row I).
Defined.

(* ================================================================= *)
(** ** Agreement of signs, fills and sheet order *)

Section SignFacts.

Local Open Scope float_scope.

Lemma ltb_asym (x y : float) : (x <? y) = true -> (y <? x) = false.
Proof.
  intros L. destruct (y <? x) eqn:E; trivial.
  pose proof (NpFacts.ltb_trans _ _ _ L E) as K.
  now rewrite NpFacts.ltb_irrefl in K.
Qed.

Lemma zero_not_signed (x : float) :
  (x =? 0) = true -> (x <? 0) = false /\ (0 <? x) = false.
Proof.
  intros Z. destruct (NpFacts.eqb_zero_SF _ Z) as [s E].
  rewrite !ltb_spec, E. now split.
Qed.

(** [np.sign] gives equal values exactly on two negatives, two positives
    or two zeros. *)
Lemma sign_agree (x y : float) :
  (Np.sign x =? Np.sign y)
  = ((x <? 0) && (y <? 0)) || ((0 <? x) && (0 <? y))
    || ((x =? 0) && (y =? 0)).
Proof.
  unfold Np.sign.
  destruct (x <? 0) eqn:Xn, (0 <? x) eqn:Xp, (x =? 0) eqn:Xz,
           (y <? 0) eqn:Yn, (0 <? y) eqn:Yp, (y =? 0) eqn:Yz;
    try reflexivity; exfalso;
    try (pose proof (ltb_asym _ _ Xn); congruence);
    try (pose proof (ltb_asym _ _ Yn); congruence);
    try (destruct (zero_not_signed _ Xz); congruence);
    try (destruct (zero_not_signed _ Yz); congruence).
Qed.

(** X16: 'With Market %' is 100 times the share of the rows whose two
    changes are both negative, both positive or both zero; a change of
    zero agrees with a zero only. *)
Theorem with_pct_counts (merged : list merged_row) :
  let agree r :=
    ((Fund_Change r <? 0) && (NIFTY_Change r <? 0))
    || ((0 <? Fund_Change r) && (0 <? NIFTY_Change r))
    || ((Fund_Change r =? 0) && (NIFTY_Change r =? 0)) in
  with_pct merged
  = Np.of_nat (List.length (filter agree merged))
    / Np.of_nat (List.length merged) * 100
  /\ (List.length (filter agree merged) <= List.length merged)%nat.
Proof.
  intros agree. split; [|apply AlignFacts.filter_length].
  unfold with_pct. do 3 f_equal.
  induction merged as [|r l IH]; simpl; trivial.
  rewrite sign_agree. fold (agree r).
  destruct (agree r); simpl; now rewrite IH.
Qed.

End SignFacts.

Section FillFacts.

Local Open Scope float_scope.

Context `{PyLibs}.

(** X17: the 'Market Tolerance' cell of a summary row is filled green
    (C6EFCE) when the up capture exceeds 100 and the down capture is below
    100, else red (FFC7CE) when the up capture is below 90 and the down
    capture exceeds 120, else yellow (FFEB9C); it is left without fill
    exactly when a capture is undefined. *)
Theorem tolerance_cell_fill (q : string) (best : scheme) (house : string)
    (merged : list merged_row) :
  let up := up_capture merged in
  let down := down_capture merged in
  tolerance_fill (Some (Market_Tolerance (summarize q best house merged)))
  = if Np.notna up && Np.notna down then
      if (100 <? up) && (down <? 100) then Some "C6EFCE"%string
      else if (up <? 90) && (120 <? down) then Some "FFC7CE"%string
      else Some "FFEB9C"%string
    else None.
Proof.
  intros up down. simpl. fold up down. unfold tolerance.
  destruct (Np.notna up && Np.notna down); [|reflexivity].
  destruct ((100 <? up) && (down <? 100)); [reflexivity|].
  destruct ((up <? 90) && (120 <? down)); reflexivity.
Qed.

(** X18: the 'Behavior' cell of a summary row is filled blue (BDD7EE)
    exactly when the correlation is at most -0.2, and is left without fill
    otherwise. *)
Theorem behavior_cell_fill (q : string) (best : scheme) (house : string)
    (merged : list merged_row) :
  let c := corr (map Fund_Change merged) (map NIFTY_Change merged) in
  behavior_fill (Some (Behavior (summarize q best house merged)))
  = if c <=? -0.2 then Some "BDD7EE"%string else None.
Proof.
  intros c. simpl. fold c. unfold behavior.
  destruct (c <=? -0.2) eqn:A.
  - destruct (NpFacts.leb_not_nan _ _ A) as [N _].
    apply NpFacts.notna_true in N. rewrite N.
    destruct (0.6 <=? c) eqn:E; [|reflexivity].
    pose proof (NpFacts.leb_trans _ _ _ E A) as K. discriminate K.
  - destruct (Np.notna c), (0.6 <=? c); reflexivity.
Qed.

End FillFacts.

Section BookFacts.

Local Open Scope string_scope.

Lemma list_remove_perm (x : string) (l : list string) :
  In x l -> Permutation l (x :: list_remove x l).
Proof.
  induction l as [|y l IH]; simpl; [intros []|].
  destruct (String.eqb_spec y x) as [->|N]; trivial.
  intros [E | K]; [congruence|].
  rewrite perm_swap. constructor. now apply IH.
Qed.

Lemma list_remove_others (x : string) (l : list string) :
  filter (fun n => negb (n =? x)) (list_remove x l)
  = filter (fun n => negb (n =? x)) l.
Proof.
  induction l as [|y l IH]; simpl; trivial.
  destruct (String.eqb_spec y x) as [->|N]; simpl; trivial.
  apply String.eqb_neq in N. rewrite N. simpl. now rewrite IH.
Qed.

(** X19: after the formatting step a workbook that has a "Summary" sheet
    has it in the first place, with the same sheets as before and the
    other sheets in their order; a workbook without it keeps its order. *)
Theorem summary_sheet_first (sheetnames : list string) :
  (In "Summary" sheetnames ->
     hd_error (summary_first sheetnames) = Some "Summary"
     /\ Permutation sheetnames (summary_first sheetnames)
     /\ filter (fun n => negb (n =? "Summary")) (summary_first sheetnames)
        = filter (fun n => negb (n =? "Summary")) sheetnames)
  /\ (~ In "Summary" sheetnames -> summary_first sheetnames = sheetnames).
Proof.
  unfold summary_first.
  destruct (existsb (String.eqb "Summary") sheetnames) eqn:E.
  - split; [|intros N; exfalso; apply N].
    + intros I. split; [reflexivity|]. split.
      * now apply list_remove_perm.
      * simpl. apply list_remove_others.
    + apply existsb_exists in E. destruct E as (n & Hn & En).
      apply String.eqb_eq in En. now subst.
  - split; [|reflexivity]. intros I. exfalso.
    assert (K : existsb (String.eqb "Summary") sheetnames = true)
      by (apply existsb_exists; exists "Summary"; split;
          [exact I | apply String.eqb_refl]).
    congruence.
Qed.

(** X20: [fetch_nifty] fails on the columns exactly when no column name
    starts with "open" or no column name contains "close", case apart;
    otherwise the two columns it takes are columns of the frame that pass
    these tests. *)
Theorem open_close_columns_found (columns : list string) :
  (open_close_columns columns = None <->
   (forall c, In c columns -> prefix "open" (Str.lower c) = false)
   \/ (forall c, In c columns -> Str.contains "close" (Str.lower c) = false))
  /\ (forall open_col close_col,
        open_close_columns columns = Some (open_col, close_col) ->
        In open_col columns /\ prefix "open" (Str.lower open_col) = true
        /\ In close_col columns
        /\ Str.contains "close" (Str.lower close_col) = true).
Proof.
  unfold open_close_columns.
  destruct (find (fun c => prefix "open" (Str.lower c)) columns)
    as [o|] eqn:Fo;
    destruct (find (fun c => Str.contains "close" (Str.lower c)) columns)
      as [c|] eqn:Fc.
  - apply find_some in Fo, Fc. destruct Fo as [Io To], Fc as [Ic Tc].
    split.
    + split; [discriminate|]. intros [K | K].
      * rewrite (K o Io) in To. discriminate.
      * rewrite (K c Ic) in Tc. discriminate.
    + intros ? ? E. inversion E; subst. tauto.
  - split; [|discriminate]. split; trivial. intros _. right.
    exact (find_none _ _ Fc).
  - split; [|discriminate]. split; trivial. intros _. left.
    exact (find_none _ _ Fo).
  - split; [|discriminate]. split; trivial. intros _. left.
    exact (find_none _ _ Fo).
Qed.

End BookFacts.

(* ================================================================= *)
(** ** Signs of the metrics *)

Section Unsigned.

Local Open Scope float_scope.

Lemma round_not_negative (m e : Z) (l : location) :
  not_negative (binary_round_aux prec emax false m e l).
Proof.
  unfold binary_round_aux.
  destruct (shr_fexp prec emax m e l) as [r1 e1].
  destruct (shr_fexp prec emax _ e1 loc_Exact) as [r2 e2].
  destruct (shr_m r2); simpl; trivial.
  destruct (_ <=? _)%Z; exact I.
Qed.

Lemma abs_not_negative (x : spec_float) : not_negative (SFabs x).
Proof. destruct x; exact I. Qed.

Lemma div_not_negative (a b : spec_float) :
  not_negative a -> not_negative b -> not_negative (SFdiv prec emax a b).
Proof.
  destruct a as [[|]|[|]| |[|] ma ea], b as [[|]|[|]| |[|] mb eb];
    simpl; intros Ha Hb; try contradiction; try exact I.
  destruct (SFdiv_core_binary prec emax (Z.pos ma) ea (Z.pos mb) eb)
    as [[mz ez] lz].
  apply round_not_negative.
Qed.

Lemma mul_not_negative (a b : spec_float) :
  not_negative a -> not_negative b -> not_negative (SFmul prec emax a b).
Proof.
  destruct a as [[|]|[|]| |[|] ma ea], b as [[|]|[|]| |[|] mb eb];
    simpl; intros Ha Hb; try contradiction; try exact I.
  apply round_not_negative.
Qed.

Lemma not_negative_ltb (r : float) :
  not_negative (Prim2SF r) -> (r <? 0) = false.
Proof.
  rewrite ltb_spec. change (Prim2SF 0) with (S754_zero false).
  destruct (Prim2SF r) as [[|]|[|]| |[|] m e]; simpl; trivial; intros [].
Qed.

Lemma of_nat_not_negative (n : nat) : not_negative (Prim2SF (Np.of_nat n)).
Proof.
  unfold Np.of_nat. rewrite of_uint63_spec. unfold binary_normalize.
  pose proof (Uint63.to_Z_bounded (Uint63.of_Z (Z.of_nat n))) as B.
  destruct (Uint63.to_Z (Uint63.of_Z (Z.of_nat n))) as [|p|p]; [exact I| |lia].
  unfold binary_round. destruct (shl_align _ _ _) as [mz ez].
  apply round_not_negative.
Qed.

(** X22: the down capture and 'With Market %' are never negative: each is
    [nan], zero or above zero. *)
Theorem unsigned_metrics (merged : list merged_row) :
  (down_capture merged <? 0) = false /\ (with_pct merged <? 0) = false.
Proof.
  split; apply not_negative_ltb.
  - unfold down_capture.
    destruct (_ && _); [|exact I].
    rewrite mul_spec, div_spec, !abs_spec.
    apply mul_not_negative; [|exact I].
    apply div_not_negative; apply abs_not_negative.
  - unfold with_pct. rewrite mul_spec, div_spec.
    apply mul_not_negative; [|exact I].
    apply div_not_negative; apply of_nat_not_negative.
Qed.

End Unsigned.

Section DetailFacts.

Context `{PyLibs} `{World}.

(** X21: when a query is analyzed, its detail sheet is the aligned series
    of the matched scheme, which is not empty, and its summary row is for
    that query, counts the rows of the sheet as its data points and
    carries the fund house of the fetched details. *)
Theorem analyzed_sheet (mf_list : list scheme) (nifty_df : list nifty_row)
    (q : string) (row : summary_row) (sheet : list merged_row) :
  analyze_query mf_list nifty_df q = Analyzed row sheet ->
  exists best details,
    fst (find_best_scheme ratio mf_list q) = Some best
    /\ fetch_mf_details (schemeCode best) = Some details
    /\ sheet = aligned (data details) nifty_df start_date
    /\ sheet <> []
    /\ Query row = q
    /\ Data_Points row = List.length sheet
    /\ Fund_House row = fund_house details.
Proof.
  intros A.
  pose proof (analyze_query_aligned mf_list nifty_df q) as K.
  unfold aligned_of_query in K.
  destruct (fst (find_best_scheme ratio mf_list q)) as [best|] eqn:M.
  - destruct (fetch_mf_details (schemeCode best)) as [details|] eqn:Fd.
    + destruct (aligned (data details) nifty_df start_date)
        as [|r merged] eqn:Al.
      * destruct K as [why K]. congruence.
      * destruct K as (best' & details' & M' & Fd' & K).
        rewrite K in A. inversion A; subst.
        assert (best' = best) by congruence. subst best'.
        assert (details' = details) by congruence. subst details'.
        exists best, details. repeat split; trivial; [now symmetry | discriminate].
    + destruct K as [why K]. congruence.
  - destruct K as [why K]. congruence.
Qed.

End DetailFacts.

Lemma analyzed_sheet_witness :
  let mf_list := @fetch_mf_list demo_world in
  let nifty_df :=
    @fetch_nifty demo_world (@start_date demo_world) (@end_date demo_world) in
  exists row sheet best details,
    @analyze_query python_libs demo_world mf_list nifty_df "axis small cap"
    = Analyzed row sheet
    /\ fst (find_best_scheme Difflib.ratio mf_list "axis small cap") = Some best
    /\ @fetch_mf_details demo_world (schemeCode best) = Some details
    /\ sheet = aligned (data details) nifty_df (@start_date demo_world)
    /\ sheet <> []
    /\ Query row = "axis small cap"%string
    /\ Data_Points row = List.length sheet
    /\ Fund_House row = fund_house details.
Proof.
  intros mf_list nifty_df.
  destruct (@analyze_query python_libs demo_world mf_list nifty_df
                           "axis small cap") as [why|row sheet] eqn:A.
  - exfalso. vm_compute in A. discriminate A.
  - exists row, sheet.
    destruct (@analyzed_sheet python_libs demo_world _ _ _ _ _ A)
      as (best & details & K).
    exists best, details. split; [reflexivity | exact K].
Defined.
